(** * puppeteer-screen-recorder: the frame buffer and the encoder feed

    A shallow embedding of [PageVideoStreamWriter]
    (src/lib/pageVideoStreamWriter.ts) and of the [stop] methods of
    [pageVideoStreamCollector] and [PuppeteerScreenRecorder], with the
    properties of the frame buffer, the duration computation and the
    writes to the ffmpeg input stream.  It also covers the frame listener
    and the quality of the collector, the listener the recorder puts on
    the frames, the listeners of the writer on ffmpeg, and the size of the
    image after the sharp operations of [_createPageScreenFrame] and of
    [FrameImageProcesser].

    Conventions of the embedding.
    - A JavaScript [number] is a rational ([Q]): timestamps, durations and
      [fps] are finite numbers.  The product [write] takes the floor of is
      rounded to binary64 as the code rounds it ([number_mul]); the
      comparison of two timestamps is exact, and the difference of two
      timestamps is kept as the exact difference.  [NaN] and the infinities
      are outside the model: a product of [binary64_overflow] or more,
      with which the loop of [write] does not end, is excluded where a
      statement depends on it.
    - A [Buffer] is a value of an arbitrary type [Blob].
    - An object is a record; a method takes the object and returns the
      object after the call (explicit state passing).
    - Reading a property of [undefined] throws a [TypeError]; a method in
      which this can happen returns [option], [None] being the exception.
    - The [PassThrough] stream given to ffmpeg is modelled by the calls
      made on it: the chunks passed to [write], in order, and the number
      of calls of [end]. *)

From Stdlib Require Import QArith Qround Qabs Qminmax Lqa String.
From stdpp Require Import list sorting.

Local Open Scope Q_scope.

(** ** JavaScript numbers *)

(** [x > y] on numbers. *)
Definition number_gt (x y : Q) : bool := negb (Qle_bool x y).

(** The nearest integer, a half going to the even neighbour. *)
Definition round_half_even (x : Q) : Z :=
  let f := Qfloor x in
  match Qcompare (x - inject_Z f) (1 # 2) with
  | Lt => f
  | Gt => (f + 1)%Z
  | Eq => if Z.even f then f else (f + 1)%Z
  end.

(** The exponent [k] with [2 ^ k <= |x| < 2 ^ (k + 1)], for [x] other than
    0. *)
Definition binade (x : Q) : Z :=
  let k := (Z.log2 (Z.abs (Qnum x)) - Z.log2 (Zpos (Qden x)))%Z in
  if Qle_bool (2 ^ k) (Qabs x) then k else (k - 1)%Z.

(** The binary64 number nearest to [x], ties to even: a significand of 53
    bits, with the subnormal numbers below [2 ^ -1022].  It is the number
    of the code for every [x] below [binary64_overflow] in absolute
    value. *)
Definition binary64 (x : Q) : Q :=
  if Qeq_bool x 0 then 0
  else
    let e := Z.max (binade x - 52) (-1074) in
    let m := round_half_even (Qabs x / 2 ^ e) in
    (if Qle_bool 0 x then inject_Z m else - inject_Z m) * 2 ^ e.

Arguments binary64 : simpl never.

(** The least number that binary64 rounds to [Infinity]: half a unit in
    the last place above the largest finite number. *)
Definition binary64_overflow : Q := 2 ^ 1024 - 2 ^ 970.

(** [x * y] on numbers. *)
Definition number_mul (x y : Q) : Q := binary64 (x * y).

(** [Math.floor]. *)
Definition Math_floor (x : Q) : Z := Qfloor x.

(** [Math.round]: the nearest integer, halves rounded up. *)
Definition Math_round (x : Q) : Z := Qfloor (x + (1 # 2)).

(** [Math.max] on two integers. *)
Definition Math_max (x y : Z) : Z := Z.max x y.

(** [String.prototype.includes]. *)
Definition includes (s sub : string) : bool :=
  match String.index 0 sub s with
  | Some _ => true
  | None => false
  end.

(** [Array.prototype.map] with a callback that may throw: the callback gets
    the element and its index, elements are visited in order and the first
    exception ends the call. *)
Definition Array_map {A B} (f : A -> nat -> option B) (l : list A) : option (list B) :=
  mapM id (imap (fun index currentValue => f currentValue index) l).

(** [Array.prototype.splice(start, deleteCount)]: the removed elements and
    the array that is left. *)
Definition splice_out {A} (start deleteCount : nat) (l : list A) : list A * list A :=
  (take deleteCount (drop start l), take start l ++ drop (start + deleteCount) l).

(** [Array.prototype.splice(start, 0, item)]. *)
Definition splice_in {A} (start : nat) (item : A) (l : list A) : list A :=
  take start l ++ item :: drop start l.

(** ** Types of pageVideoStreamTypes.ts *)

(** Modelled from the spec: the enum [VIDEO_WRITE_STATUS] is declared in
    pageVideoStreamTypes.ts, which is not among the sources; the spec lists
    its three members. *)
Inductive VIDEO_WRITE_STATUS := NOT_STARTED | IN_PROGRESS | COMPLETED.

#[global] Instance VIDEO_WRITE_STATUS_eq_dec : EqDecision VIDEO_WRITE_STATUS.
Proof. solve_decision. Defined.

Definition status_eqb (a b : VIDEO_WRITE_STATUS) : bool :=
  match a, b with
  | NOT_STARTED, NOT_STARTED | IN_PROGRESS, IN_PROGRESS | COMPLETED, COMPLETED => true
  | _, _ => false
  end.

(** The metadata of a screencast frame, as [_createPageScreenFrame] reads
    it. *)
Record Metadata := {
  md_timestamp : Q;
  deviceWidth : option Z;
  deviceHeight : option Z
}.

Section Writer.

(** [Data] is the base64 payload of a screencast frame, [Blob] a [Buffer],
    [Promise] the type of promise objects. *)
Context {Data Blob Promise : Type}.

Record RawFrame := {
  data : Data;
  metadata : Metadata
}.

(** [PageScreenFrame]: [duration] is absent until [_trimFrame] sets it. *)
Record PageScreenFrame := {
  timestamp : Q;
  blob : Blob;
  duration : option Q
}.

(** The stream [_videoMediatorStream], as the calls made on it. *)
Record PassThrough := {
  written : list Blob;
  endCalls : nat
}.

Definition stream_write (chunk : Blob) (s : PassThrough) : PassThrough :=
  {| written := written s ++ [chunk]; endCalls := endCalls s |}.

Definition stream_end (s : PassThrough) : PassThrough :=
  {| written := written s; endCalls := S (endCalls s) |}.

(** The fields of a [PageVideoStreamWriter] that the methods below read or
    write, with the events emitted by the object and the lines it sent to
    [console.error]. *)
Record PageVideoStreamWriter := {
  _screenCastFrames : list PageScreenFrame;
  _status : VIDEO_WRITE_STATUS;
  options_fps : Q;
  _videoMediatorStream : PassThrough;
  _writerPromise : Promise;
  emitted : list (string * string);
  console_error : list string
}.

Definition set_screenCastFrames (l : list PageScreenFrame) (w : PageVideoStreamWriter) :=
  {| _screenCastFrames := l; _status := _status w; options_fps := options_fps w;
     _videoMediatorStream := _videoMediatorStream w; _writerPromise := _writerPromise w;
     emitted := emitted w; console_error := console_error w |}.

Definition set_status (s : VIDEO_WRITE_STATUS) (w : PageVideoStreamWriter) :=
  {| _screenCastFrames := _screenCastFrames w; _status := s; options_fps := options_fps w;
     _videoMediatorStream := _videoMediatorStream w; _writerPromise := _writerPromise w;
     emitted := emitted w; console_error := console_error w |}.

Definition set_videoMediatorStream (s : PassThrough) (w : PageVideoStreamWriter) :=
  {| _screenCastFrames := _screenCastFrames w; _status := _status w; options_fps := options_fps w;
     _videoMediatorStream := s; _writerPromise := _writerPromise w;
     emitted := emitted w; console_error := console_error w |}.

Definition emit (event message : string) (w : PageVideoStreamWriter) :=
  {| _screenCastFrames := _screenCastFrames w; _status := _status w; options_fps := options_fps w;
     _videoMediatorStream := _videoMediatorStream w; _writerPromise := _writerPromise w;
     emitted := emitted w ++ [(event, message)]; console_error := console_error w |}.

Definition console_error_log (line : string) (w : PageVideoStreamWriter) :=
  {| _screenCastFrames := _screenCastFrames w; _status := _status w; options_fps := options_fps w;
     _videoMediatorStream := _videoMediatorStream w; _writerPromise := _writerPromise w;
     emitted := emitted w; console_error := console_error w ++ [line] |}.

(** The object after the constructor, for the frame rate of the options
    and the promise the constructor stored. *)
Definition new_writer (fps : Q) (p : Promise) : PageVideoStreamWriter :=
  {| _screenCastFrames := []; _status := NOT_STARTED; options_fps := fps;
     _videoMediatorStream := {| written := []; endCalls := 0 |};
     _writerPromise := p; emitted := []; console_error := [] |}.

(** ** The methods of PageVideoStreamWriter *)

Definition _screenLimit : nat := 40.

(** The image part of [_createPageScreenFrame]: [Buffer.from(data, 'base64')],
    passed through sharp when [saveFrameSize] is set.  It is computed
    outside this program. *)
Variable createBlob : RawFrame -> Blob.

Definition _createPageScreenFrame (raw : RawFrame) : PageScreenFrame :=
  {| timestamp := md_timestamp (metadata raw); blob := createBlob raw; duration := None |}.

(** [write]: the loop [for (i = 0; i < NUMBER_OF_FPS; i++)] runs its body
    [NUMBER_OF_FPS] times, none when that number is not positive.
    [durationSeconds] is [None] for a call without the argument.  The
    product is the binary64 product; where it is [Infinity] in the code,
    from [binary64_overflow] on, the loop of the code does not end. *)
Definition write (data : Blob) (durationSeconds : option Q) (w : PageVideoStreamWriter)
  : PageVideoStreamWriter :=
  let durationSeconds := default 1 durationSeconds in
  let w := set_status IN_PROGRESS w in
  let NUMBER_OF_FPS := Math_max (Math_floor (number_mul durationSeconds (options_fps w))) 1 in
  Nat.iter (Z.to_nat NUMBER_OF_FPS)
    (fun w => set_videoMediatorStream (stream_write data (_videoMediatorStream w)) w) w.

(** [_findSlot]: the loop counts [i] down from [length - 1]; [n] is [i + 1],
    so [n = 0] is the exit of the loop with [i = -1]. *)
Fixpoint _findSlot_loop (frames : list PageScreenFrame) (timestamp' : Q) (n : nat) : option nat :=
  match n with
  | O => Some O
  | S i =>
      frame ← frames !! i;
      if number_gt timestamp' (timestamp frame) then Some (i + 1)%nat
      else _findSlot_loop frames timestamp' i
  end.

Definition _findSlot (timestamp' : Q) (w : PageVideoStreamWriter) : option nat :=
  if (length (_screenCastFrames w) =? 0)%nat then Some O
  else _findSlot_loop (_screenCastFrames w) timestamp' (length (_screenCastFrames w)).

(** The arrow function [_trimFrame] passes to [map]. *)
Definition _trimFrame_callback (fameList : list PageScreenFrame) (chunckEndTime : Q)
  (currentFrame : PageScreenFrame) (index : nat) : option PageScreenFrame :=
  endTime ← (if negb (Z.of_nat index =? Z.of_nat (length fameList) - 1)%Z
             then timestamp <$> fameList !! (index + 1)%nat
             else Some chunckEndTime);
  let duration := endTime - timestamp currentFrame in
  Some {| timestamp := timestamp currentFrame; blob := blob currentFrame;
          duration := Some duration |}.

Definition _trimFrame (fameList : list PageScreenFrame) (chunckEndTime : Q)
  : option (list PageScreenFrame) :=
  Array_map (_trimFrame_callback fameList chunckEndTime) fameList.

Definition _processFrameBeforeWrite (frames : list PageScreenFrame) (chunckEndTime : Q)
  (w : PageVideoStreamWriter) : option PageVideoStreamWriter :=
  processedFrames ← _trimFrame frames chunckEndTime;
  Some (foldl (fun w frame => write (blob frame) (duration frame) w) w processedFrames).

Definition _drainFrames (stoppedTime : Q) (w : PageVideoStreamWriter) : option PageVideoStreamWriter :=
  w ← _processFrameBeforeWrite (_screenCastFrames w) stoppedTime w;
  Some (set_screenCastFrames [] w).

Definition insert (raw : RawFrame) (w : PageVideoStreamWriter) : option PageVideoStreamWriter :=
  let frame := _createPageScreenFrame raw in
  w ← (if (length (_screenCastFrames w) =? _screenLimit)%nat then
         let numberOfFramesToSplice := (_screenLimit / 2)%nat in
         let '(framesToProcess, rest) := splice_out 0 numberOfFramesToSplice (_screenCastFrames w) in
         let w := set_screenCastFrames rest w in
         head ← _screenCastFrames w !! 0%nat;
         _processFrameBeforeWrite framesToProcess (timestamp head) w
       else Some w);
  insertionIndex ← _findSlot (timestamp frame) w;
  if (insertionIndex =? length (_screenCastFrames w))%nat
  then Some (set_screenCastFrames (_screenCastFrames w ++ [frame]) w)
  else Some (set_screenCastFrames (splice_in insertionIndex frame (_screenCastFrames w)) w).

(** [stop]: [stoppedTime] is the argument, [Date.now() / 1000] by default. *)
Definition stop (stoppedTime : Q) (w : PageVideoStreamWriter)
  : option (Promise * PageVideoStreamWriter) :=
  if status_eqb (_status w) COMPLETED then Some (_writerPromise w, w)
  else
    w ← _drainFrames stoppedTime w;
    let w := set_videoMediatorStream (stream_end (_videoMediatorStream w)) w in
    let w := set_status COMPLETED w in
    Some (_writerPromise w, w).

Definition _handleWriteStreamError (errorMessage : string) (w : PageVideoStreamWriter)
  : PageVideoStreamWriter :=
  let w := emit "videoStreamWriterError" errorMessage w in
  if negb (status_eqb (_status w) IN_PROGRESS) && includes errorMessage "pipe:0: End of file"
  then w
  else console_error_log (String.append "Error unable to capture video stream: " errorMessage) w.

(** A run of the object: the frames reach [insert] one after the other. *)
Definition insert_all (raws : list RawFrame) (w : PageVideoStreamWriter)
  : option PageVideoStreamWriter :=
  foldl (fun ow raw => ow ≫= insert raw) (Some w) raws.

(** ** [stop] of pageVideoStreamCollector and of PuppeteerScreenRecorder *)

(** Of the collector, [stop] reads and writes the flag [_isStreamingEnded];
    the sessions it detaches belong to the browser. *)
Record pageVideoStreamCollector := {
  _isStreamingEnded : bool
}.

Definition collector_stop (c : pageVideoStreamCollector) : bool * pageVideoStreamCollector :=
  if _isStreamingEnded c then (_isStreamingEnded c, c)
  else (true, {| _isStreamingEnded := true |}).

(** [_streamWriter] is [undefined] until [start] or [startStream];
    [_isScreenCaptureEnded] is [null] until [stop] has completed. *)
Record PuppeteerScreenRecorder := {
  _streamReader : pageVideoStreamCollector;
  _streamWriter : option PageVideoStreamWriter;
  _isScreenCaptureEnded : option bool
}.

(** The value a promise of the writer is fulfilled with: [true] when ffmpeg
    ends, [false] when it reports an error. *)
Variable await : Promise -> bool.

(** [stop] of the recorder, for a call that runs to its end; [now] is
    [Date.now() / 1000] at the call of the writer's [stop]. *)
Definition recorder_stop (now : Q) (r : PuppeteerScreenRecorder)
  : option (bool * PuppeteerScreenRecorder) :=
  match _isScreenCaptureEnded r with
  | Some ended => Some (ended, r)
  | None =>
      let '(_, reader) := collector_stop (_streamReader r) in
      writer ← _streamWriter r;
      '(promise, writer) ← stop (now) writer;
      let ended := await promise in
      Some (ended, {| _streamReader := reader; _streamWriter := Some writer;
                      _isScreenCaptureEnded := Some ended |})
  end.

(** ** Functions of the specification *)

(** The number of times [write] passes a chunk to the stream, as the code
    computes it. *)
Definition repetitions (fps durationSeconds : Q) : nat :=
  Z.to_nat (Math_max (Math_floor (number_mul durationSeconds fps)) 1).

(** The number of repetitions written in the spec: [max(1, round(d * fps))]. *)
Definition repetitions_rounded (fps durationSeconds : Q) : nat :=
  Z.to_nat (Math_max 1 (Math_round (number_mul durationSeconds fps))).

(** The chunks a list of frames with durations becomes on the stream. *)
Definition chunks_of (fps : Q) (frames : list PageScreenFrame) : list Blob :=
  flat_map (fun f => replicate (repetitions fps (default 1 (duration f))) (blob f)) frames.

Definition with_duration (f : PageScreenFrame) (d : Q) : PageScreenFrame :=
  {| timestamp := timestamp f; blob := blob f; duration := Some d |}.

(** The durations of a batch by recursion on the batch: a frame lasts until
    the next one, the last frame until the end of the batch. *)
Fixpoint resolve (frames : list PageScreenFrame) (batchEndTime : Q) : list PageScreenFrame :=
  match frames with
  | [] => []
  | f :: rest =>
      with_duration f (match rest with
                       | [] => batchEndTime
                       | g :: _ => timestamp g
                       end - timestamp f)
      :: resolve rest batchEndTime
  end.

(** The buffer order: ascending timestamps. *)
Definition frame_le (a b : PageScreenFrame) : Prop := timestamp a <= timestamp b.
Definition sorted_by_timestamp (l : list PageScreenFrame) : Prop := StronglySorted frame_le l.

(** A decision procedure for ascending order of a list of numbers. *)
Fixpoint ascending (l : list Q) : bool :=
  match l with
  | [] => true
  | x :: rest =>
      match rest with
      | [] => true
      | y :: _ => Qle_bool x y && ascending rest
      end
  end.

(** The calls of [write] that [_processFrameBeforeWrite] makes for the
    frames [_trimFrame] returned. *)
Definition write_all (processedFrames : list PageScreenFrame) (w : PageVideoStreamWriter) : PageVideoStreamWriter :=
  foldl (fun w frame => write (blob frame) (duration frame) w) w processedFrames.

(** The object between the half-drain and the search of the slot, when
    the buffer holds [_screenLimit] frames and [head] is the first frame
    that stays. *)
Definition half_drained (head : PageScreenFrame) (w : PageVideoStreamWriter) : PageVideoStreamWriter :=
  write_all (resolve (take 20 (_screenCastFrames w)) (timestamp head))
    (set_screenCastFrames (drop 20 (_screenCastFrames w)) w).

End Writer.

(** ** The frames ffmpeg gets, the collector and the image pipeline *)

Section Ledger.

Context {Blob : Type}.

(** What identifies a frame on its way through the writer: [_trimFrame]
    changes the duration only. *)
Definition frame_key (f : @PageScreenFrame Blob) : Q * Blob := (timestamp f, blob f).

(** The number of frames of a buffer that are older than the timestamp
    [t]. *)
Definition count_older (t : Q) (l : list (@PageScreenFrame Blob)) : nat :=
  length (List.filter (fun x => number_gt t (timestamp x)) l).

(** The state of a writer whose frames came in ascending order of
    timestamp up to [m]; [stamp] reads the timestamp of a frame off its
    blob. *)
Definition in_order_state {Promise} (stamp : Blob -> Q) (m : Q)
  (w : @PageVideoStreamWriter Blob Promise) : Prop :=
  sorted_by_timestamp (_screenCastFrames w)
  /\ Forall (fun f => timestamp f <= m /\ stamp (blob f) == timestamp f) (_screenCastFrames w)
  /\ StronglySorted Qle (stamp <$> written (_videoMediatorStream w))
  /\ Forall (fun b => stamp b <= m) (written (_videoMediatorStream w))
  /\ (forall b f, b ∈ written (_videoMediatorStream w) -> f ∈ _screenCastFrames w ->
        stamp b <= timestamp f).

End Ledger.

(** ** The conversion that [insert] awaits *)

Section Conversion.

Context {Data Blob Promise : Type}.

(** What the promise of [_createPageScreenFrame] is settled with for a
    frame: the blob it is fulfilled with, or [None] when it is rejected,
    as the promise of sharp's [toBuffer] is for data that is no image or
    for an [extract] whose area is empty. *)
Variable toBuffer : @RawFrame Data -> option Blob.

(** [insert] with the [await] of its first line.  A rejection is thrown
    there, before the buffer is read: the promise of [insert] is rejected
    and the object is as it was.  The boolean says whether the promise of
    [insert] is fulfilled. *)
Definition insert_awaited (raw : @RawFrame Data) (w : @PageVideoStreamWriter Blob Promise)
  : option (bool * @PageVideoStreamWriter Blob Promise) :=
  match toBuffer raw with
  | None => Some (false, w)
  | Some blob =>
      w ← insert (fun _ => blob) raw w;
      Some (true, w)
  end.

(** A run of the object in which the calls of [insert] are settled one
    after the other; a rejected call is passed over, as by the listener of
    the recorder, which drops the promise. *)
Fixpoint insert_awaited_all (raws : list (@RawFrame Data))
  (w : @PageVideoStreamWriter Blob Promise) : option (@PageVideoStreamWriter Blob Promise) :=
  match raws with
  | [] => Some w
  | raw :: raws =>
      settled ← insert_awaited raw w;
      insert_awaited_all raws settled.2
  end.

(** The frames of a run whose conversion is fulfilled, with the blob in
    the place of the data. *)
Definition converted (raws : list (@RawFrame Data)) : list (@RawFrame Blob) :=
  omap (fun raw => blob ← toBuffer raw; Some {| data := blob; metadata := metadata raw |}) raws.

(** The timestamp and the blob of the frames whose conversion is
    fulfilled. *)
Definition converted_keys (raws : list (@RawFrame Data)) : list (Q * Blob) :=
  omap (fun raw => blob ← toBuffer raw; Some (md_timestamp (metadata raw), blob)) raws.

End Conversion.

(** ** The frame handler of pageVideoStreamCollector *)

(** A number of a CDP event that may be [undefined]. *)
Definition falsy_number (x : option Q) : bool :=
  match x with
  | None => true
  | Some q => Qeq_bool q 0
  end.

(** [Page.screencastFrame]: [cdp_timestamp] is [None] when the event has
    no timestamp. *)
Record ScreencastFrameMetadata := {
  cdp_timestamp : option Q;
  cdp_deviceWidth : option Z;
  cdp_deviceHeight : option Z
}.

Section Collector.

Context {Data Blob Promise : Type}.

Record ScreencastFrame := {
  sf_metadata : ScreencastFrameMetadata;
  sf_data : Data;
  sf_sessionId : nat
}.

(** What the listener of [_handleScreenCastFrame] does with an event: it
    calls [resolve] and returns, or it sends the acknowledgment for
    [sessionId] and emits [pageScreenFrame] with the data and the
    metadata. *)
Inductive HandlerEffect :=
  | Resolved
  | Forwarded (sessionId : nat) (frame : @RawFrame Data).

Definition screencastFrame_listener (c : pageVideoStreamCollector) (sf : ScreencastFrame)
  : HandlerEffect :=
  match cdp_timestamp (sf_metadata sf) with
  | None => Resolved
  | Some timestamp' =>
      if falsy_number (Some timestamp') || _isStreamingEnded c then Resolved
      else Forwarded (sf_sessionId sf)
             {| data := sf_data sf;
                metadata := {| md_timestamp := timestamp';
                               deviceWidth := cdp_deviceWidth (sf_metadata sf);
                               deviceHeight := cdp_deviceHeight (sf_metadata sf) |} |}
  end.

(** The collector with what it sent and emitted so far. *)
Record CollectorTrace := {
  ct_collector : pageVideoStreamCollector;
  ct_acks : list nat;
  ct_pageScreenFrames : list (@RawFrame Data);
  ct_resolveCalls : nat
}.

Inductive CollectorEvent :=
  | screencastFrame (sf : ScreencastFrame)
  | stopCompletes.

Definition collector_step (t : CollectorTrace) (e : CollectorEvent) : CollectorTrace :=
  match e with
  | screencastFrame sf =>
      match screencastFrame_listener (ct_collector t) sf with
      | Resolved =>
          {| ct_collector := ct_collector t; ct_acks := ct_acks t;
             ct_pageScreenFrames := ct_pageScreenFrames t;
             ct_resolveCalls := S (ct_resolveCalls t) |}
      | Forwarded sessionId frame =>
          {| ct_collector := ct_collector t; ct_acks := ct_acks t ++ [sessionId];
             ct_pageScreenFrames := ct_pageScreenFrames t ++ [frame];
             ct_resolveCalls := ct_resolveCalls t |}
      end
  | stopCompletes =>
      {| ct_collector := (collector_stop (ct_collector t)).2; ct_acks := ct_acks t;
         ct_pageScreenFrames := ct_pageScreenFrames t;
         ct_resolveCalls := ct_resolveCalls t |}
  end.

Definition new_collector : CollectorTrace :=
  {| ct_collector := {| _isStreamingEnded := false |}; ct_acks := [];
     ct_pageScreenFrames := []; ct_resolveCalls := 0 |}.

(** The events the collector forwards: those before the first completed
    [stop] that carry a timestamp other than 0. *)
Fixpoint forwarded_frames (events : list CollectorEvent) : list ScreencastFrame :=
  match events with
  | [] => []
  | stopCompletes :: _ => []
  | screencastFrame sf :: rest =>
      if falsy_number (cdp_timestamp (sf_metadata sf)) then forwarded_frames rest
      else sf :: forwarded_frames rest
  end.

Definition raw_of_screencastFrame (sf : ScreencastFrame) : @RawFrame Data :=
  {| data := sf_data sf;
     metadata := {| md_timestamp := default 0 (cdp_timestamp (sf_metadata sf));
                    deviceWidth := cdp_deviceWidth (sf_metadata sf);
                    deviceHeight := cdp_deviceHeight (sf_metadata sf) |} |}.

(** The listener [_setupListeners] of the recorder puts on
    [pageScreenFrame]: the frame goes to [insert] of the writer.  The
    calls of [insert] complete one after the other, in the order of the
    events. *)
Variable createBlob : @RawFrame Data -> Blob.

Definition recorder_on_screencastFrame (sf : ScreencastFrame)
  (r : @PuppeteerScreenRecorder Blob Promise) : option (@PuppeteerScreenRecorder Blob Promise) :=
  match screencastFrame_listener (_streamReader r) sf with
  | Resolved => Some r
  | Forwarded _ rawFrame =>
      writer ← _streamWriter r;
      writer ← insert createBlob rawFrame writer;
      Some {| _streamReader := _streamReader r; _streamWriter := Some writer;
              _isScreenCaptureEnded := _isScreenCaptureEnded r |}
  end.

Definition recorder_run (sfs : list ScreencastFrame) (r : @PuppeteerScreenRecorder Blob Promise)
  : option (@PuppeteerScreenRecorder Blob Promise) :=
  foldl (fun or sf => or ≫= recorder_on_screencastFrame sf) (Some r) sfs.

End Collector.

(** ** The quality of the screencast *)

(** A number of the options that may be [NaN]. *)
Inductive jsnumber :=
  | NaN
  | Num (q : Q).

(** The quality [_startScreenCast] sends with [Page.startScreencast]. *)
Definition startScreenCast_quality (quality : jsnumber) : Q :=
  match quality with
  | NaN => 100
  | Num q => Qmax (Qmin q 100) 0
  end.

(** ** The size of a frame after sharp *)

Record ImageSize := {
  img_width : Z;
  img_height : Z
}.

(** The operations of sharp the code uses, with the arguments that decide
    the size of the result. *)
Inductive SharpOperation :=
  | sharp_resize (width height : Z)
  | sharp_extract (left top width height : Z)
  | sharp_extend (top bottom left right : Z).

(** The effect of an operation of sharp on the size of the image: [resize]
    with a width and a height gives exactly that size, [extract] gives the
    size of its region, which has to lie inside the image, and [extend]
    adds its margins.  [None] is an operation sharp rejects. *)
Definition sharp_operation_size (op : SharpOperation) (s : ImageSize) : option ImageSize :=
  match op with
  | sharp_resize width height =>
      if ((0 <? width) && (0 <? height))%Z
      then Some {| img_width := width; img_height := height |}
      else None
  | sharp_extract left' top' width height =>
      if ((0 <=? left') && (0 <=? top') && (0 <? width) && (0 <? height)
          && (left' + width <=? img_width s) && (top' + height <=? img_height s))%Z
      then Some {| img_width := width; img_height := height |}
      else None
  | sharp_extend top' bottom' left' right' =>
      if ((0 <=? top') && (0 <=? bottom') && (0 <=? left') && (0 <=? right'))%Z
      then Some {| img_width := img_width s + left' + right';
                   img_height := img_height s + top' + bottom' |}%Z
      else None
  end.

(** The size of the image [toBuffer] returns for the operations in the
    order of the calls. *)
Definition sharp_toBuffer_size (ops : list SharpOperation) (s : ImageSize) : option ImageSize :=
  foldl (fun os op => os ≫= sharp_operation_size op) (Some s) ops.

(** [options.videoFrame]: a width and a height that are [null] by
    default. *)
Record VideoFrame := {
  vf_width : option Z;
  vf_height : option Z
}.

(** The number [Math.min], [Math.max] and [-] take [null] for. *)
Definition null_to_number (x : option Z) : Z := default 0%Z x.

(** The operations [_createPageScreenFrame] of the writer puts on the
    image when [saveFrameSize] is set. *)
Definition createPageScreenFrame_operations (videoFrame : VideoFrame) (md : Metadata)
  : list SharpOperation :=
  match deviceWidth md, deviceHeight md with
  | Some deviceWidth, Some deviceHeight =>
      if (negb (deviceWidth =? 0) && negb (deviceHeight =? 0))%Z then
        [ sharp_resize deviceWidth deviceHeight;
          sharp_extract 0 0
            (Z.min (null_to_number (vf_width videoFrame)) deviceWidth)
            (Z.min (null_to_number (vf_height videoFrame)) deviceHeight);
          sharp_extend 0 (Z.max (null_to_number (vf_height videoFrame) - deviceHeight) 0)
            0 (Z.max (null_to_number (vf_width videoFrame) - deviceWidth) 0) ]
      else []
  | _, _ => []
  end.

(** The size of the image in the blob of [_createPageScreenFrame], for the
    size of the image in the data of the frame. *)
Definition createPageScreenFrame_size (saveFrameSize : bool) (videoFrame : VideoFrame)
  (md : Metadata) (decoded : ImageSize) : option ImageSize :=
  if saveFrameSize
  then sharp_toBuffer_size (createPageScreenFrame_operations videoFrame md) decoded
  else Some decoded.

(** [FrameImageProcesser.process]: [size] is the size given to the
    constructor, [options] the width and the height asked for. *)
Definition FrameImageProcesser_operations (size options : ImageSize) : list SharpOperation :=
  (if (negb (img_width size =? 0) && negb (img_height size =? 0))%Z
   then [sharp_resize (img_width size) (img_height size)]
   else [])
  ++ [ sharp_extract 0 0
         (Z.min (img_width options) (img_width size))
         (Z.min (img_height options) (img_height size));
       sharp_extend 0 (Z.max (img_height options - img_height size) 0)
         0 (Z.max (img_width options - img_width size) 0) ].

Definition FrameImageProcesser_process (size options decoded : ImageSize) : option ImageSize :=
  sharp_toBuffer_size (FrameImageProcesser_operations size options) decoded.

(** ** The listeners on ffmpeg *)

Section Listeners.

Context {Blob Promise : Type}.

(** The writer with the state of the promise its constructor made
    ([None] while it is pending) and, for a writable destination, the
    errors emitted on it and the calls of its [end].
    [host_errorListener] says whether the destination has a listener for
    [error]: [emit] throws without one. *)
Record WriterHost := {
  host_writer : @PageVideoStreamWriter Blob Promise;
  host_settled : option bool;
  host_errorListener : bool;
  host_destinationErrors : list string;
  host_destinationEndCalls : nat
}.

Inductive FfmpegEvent :=
  | ffmpeg_error (message : string)
  | ffmpeg_end.

(** [resolve] of the promise: the first call settles it. *)
Definition promise_resolve (value : bool) (h : WriterHost) : WriterHost :=
  {| host_writer := host_writer h;
     host_settled := match host_settled h with
                     | None => Some value
                     | Some settled => Some settled
                     end;
     host_errorListener := host_errorListener h;
     host_destinationErrors := host_destinationErrors h;
     host_destinationEndCalls := host_destinationEndCalls h |}.

(** The listeners of [_configureVideoFile]. *)
Definition configureVideoFile_on (e : FfmpegEvent) (h : WriterHost) : option WriterHost :=
  match e with
  | ffmpeg_error message =>
      let h := {| host_writer := _handleWriteStreamError message (host_writer h);
                  host_settled := host_settled h;
                  host_errorListener := host_errorListener h;
                  host_destinationErrors := host_destinationErrors h;
                  host_destinationEndCalls := host_destinationEndCalls h |} in
      Some (promise_resolve false h)
  | ffmpeg_end => Some (promise_resolve true h)
  end.

(** The listeners of [_configureVideoWritableStream]. *)
Definition configureVideoWritableStream_on (e : FfmpegEvent) (h : WriterHost)
  : option WriterHost :=
  match e with
  | ffmpeg_error message =>
      if host_errorListener h then
        let h := {| host_writer := host_writer h;
                    host_settled := host_settled h;
                    host_errorListener := host_errorListener h;
                    host_destinationErrors := host_destinationErrors h ++ [message];
                    host_destinationEndCalls := host_destinationEndCalls h |} in
        Some (promise_resolve false h)
      else None
  | ffmpeg_end =>
      let h := {| host_writer := host_writer h;
                  host_settled := host_settled h;
                  host_errorListener := host_errorListener h;
                  host_destinationErrors := host_destinationErrors h;
                  host_destinationEndCalls := S (host_destinationEndCalls h) |} in
      Some (promise_resolve true h)
  end.

Definition ffmpeg_events (on : FfmpegEvent -> WriterHost -> option WriterHost)
  (events : list FfmpegEvent) (h : WriterHost) : option WriterHost :=
  foldl (fun oh e => oh ≫= on e) (Some h) events.

(** The messages of the error events, and the result of the first event. *)
Definition error_messages (events : list FfmpegEvent) : list string :=
  omap (fun e => match e with ffmpeg_error m => Some m | ffmpeg_end => None end) events.

Definition first_result (events : list FfmpegEvent) : option bool :=
  match events with
  | [] => None
  | ffmpeg_error _ :: _ => Some false
  | ffmpeg_end :: _ => Some true
  end.

End Listeners.

(** ** Inputs of the concrete runs *)

(** Frames whose payload is a number that identifies them; the blob of a
    frame is that number. *)
Definition raw_at (id : nat) (t : Q) : @RawFrame nat :=
  {| data := id;
     metadata := {| md_timestamp := t; deviceWidth := None; deviceHeight := None |} |}.

Definition blob_of_id (raw : @RawFrame nat) : nat := data raw.

(** Frame number [i] is taken at second [i]. *)
Definition raw_of_second (i : nat) : @RawFrame nat := raw_at i (inject_Z (Z.of_nat i)).

Definition second_of_blob (b : nat) : Q := inject_Z (Z.of_nat b).


(** The same frames in the order of their timestamps. *)
Definition by_timestamp : list (@RawFrame nat) := raw_of_second <$> seq 1 41.

(** A writer at one frame per second. *)
Definition writer_1fps : @PageVideoStreamWriter nat unit := new_writer 1 tt.

(** A writer at the default 25 frames per second. *)
Definition writer_25fps : @PageVideoStreamWriter nat unit := new_writer 25 tt.

(** A writer at 3 frames per second. *)
Definition writer_3fps : @PageVideoStreamWriter nat unit := new_writer 3 tt.

(** The binary64 numbers that are written 0.06, 0.12 and
    0.6666666666666666. *)
Definition double_0_06 : Q := 1080863910568919 # 18014398509481984.
Definition double_0_12 : Q := 1080863910568919 # 9007199254740992.
Definition double_two_thirds : Q := 6004799503160661 # 9007199254740992.

(** A full buffer: the frames of the seconds 1 to 40. *)
Definition full_writer : @PageVideoStreamWriter nat unit :=
  set_screenCastFrames (_createPageScreenFrame blob_of_id <$> (raw_of_second <$> seq 1 40))
    writer_1fps.

(** Three frames that arrive out of order. *)
Definition three_frames : list (@RawFrame nat) :=
  [raw_of_second 10; raw_of_second 5; raw_of_second 7].

(** A conversion that is rejected for the frame taken at second 7. *)
Definition reject_second_7 (raw : @RawFrame nat) : option nat :=
  if Qeq_bool (md_timestamp (metadata raw)) 7 then None else Some (data raw).

(** A writer after a normal [stop]. *)
Definition stopped_writer : @PageVideoStreamWriter nat unit :=
  set_status COMPLETED
    (set_videoMediatorStream (stream_end (_videoMediatorStream writer_25fps)) writer_25fps).

(** Two frames with a regressing timestamp. *)
Definition regressing : list (@PageScreenFrame nat) :=
  [ {| timestamp := 10; blob := 1%nat; duration := None |};
    {| timestamp := 5; blob := 2%nat; duration := None |} ].



(** A frame size of 1280 x 720 for a device of 800 x 600. *)
Definition hd_videoFrame : VideoFrame := {| vf_width := Some 1280%Z; vf_height := Some 720%Z |}.

Definition device_metadata : Metadata :=
  {| md_timestamp := 5; deviceWidth := Some 800%Z; deviceHeight := Some 600%Z |}.

Definition captured_size : ImageSize := {| img_width := 1600; img_height := 1200 |}.

(** A writer with a writable destination that listens to [error]. *)
Definition stream_host : @WriterHost nat unit :=
  {| host_writer := writer_25fps; host_settled := None; host_errorListener := true;
     host_destinationErrors := []; host_destinationEndCalls := 0 |}.

(** ** Properties of the methods *)

Section Properties.

Context {Data Blob Promise : Type}.
Variable createBlob : @RawFrame Data -> Blob.

Abbreviation Frame := (@PageScreenFrame Blob).
Abbreviation WriterObj := (@PageVideoStreamWriter Blob Promise).

#[local] Instance frame_le_trans : Transitive (@frame_le Blob).
Proof. intros a b c; unfold frame_le; apply Qle_trans. Qed.


Lemma Sorted_ascending (l : list Q) : ascending l = true -> Sorted Qle l.
Proof.
  induction l as [|x l IH]; [constructor|].
  destruct l as [|y l]; [repeat constructor|].
  cbn [ascending]. intros [Hxy Hl]%andb_true_iff.
  constructor; [by apply IH|constructor; by apply Qle_bool_iff].
Qed.

(** *** [number_gt] *)

Lemma number_gt_true x y : number_gt x y = true <-> y < x.
Proof.
  unfold number_gt. rewrite negb_true_iff, <- not_true_iff_false, Qle_bool_iff.
  split; [apply Qnot_le_lt|apply Qlt_not_le].
Qed.

Lemma number_gt_false x y : number_gt x y = false <-> x <= y.
Proof. unfold number_gt. by rewrite negb_false_iff, Qle_bool_iff. Qed.

(** *** [write] *)

Lemma write_iter_fields (chunk : Blob) n (w : WriterObj) :
  let w' := Nat.iter n
      (fun w => set_videoMediatorStream (stream_write chunk (_videoMediatorStream w)) w) w in
  written (_videoMediatorStream w') = written (_videoMediatorStream w) ++ replicate n chunk
  /\ endCalls (_videoMediatorStream w') = endCalls (_videoMediatorStream w)
  /\ _screenCastFrames w' = _screenCastFrames w /\ _status w' = _status w
  /\ options_fps w' = options_fps w /\ _writerPromise w' = _writerPromise w
  /\ emitted w' = emitted w /\ console_error w' = console_error w.
Proof.
  induction n as [|n IH]; simpl.
  - by rewrite app_nil_r.
  - destruct IH as (-> & -> & -> & -> & -> & -> & -> & ->).
    repeat split; try done.
    by rewrite <- app_assoc, <- replicate_S_end.
Qed.

Lemma write_spec (chunk : Blob) d (w : WriterObj) :
  let w' := write chunk d w in
  written (_videoMediatorStream w') =
    written (_videoMediatorStream w) ++ replicate (repetitions (options_fps w) (default 1 d)) chunk
  /\ endCalls (_videoMediatorStream w') = endCalls (_videoMediatorStream w)
  /\ _screenCastFrames w' = _screenCastFrames w /\ _status w' = IN_PROGRESS
  /\ options_fps w' = options_fps w /\ _writerPromise w' = _writerPromise w
  /\ emitted w' = emitted w /\ console_error w' = console_error w.
Proof.
  unfold write, repetitions.
  pose proof (write_iter_fields chunk
    (Z.to_nat (Math_max (Math_floor
       (number_mul (default 1 d) (options_fps (set_status IN_PROGRESS w)))) 1))
    (set_status IN_PROGRESS w)) as H.
  exact H.
Qed.

(** *** [_trimFrame] *)

Lemma trimFrame_from (pre l : list Frame) (e : Q) :
  mapM id (imap (fun index currentFrame =>
                   _trimFrame_callback (pre ++ l) e currentFrame (length pre + index)) l)
  = Some (resolve l e).
Proof.
  revert pre. induction l as [|f rest IH]; intros pre; [reflexivity|].
  rewrite imap_cons. cbn [mapM resolve].
  rewrite (imap_ext _ (fun index currentFrame =>
             _trimFrame_callback ((pre ++ [f]) ++ rest) e currentFrame
               (length (pre ++ [f]) + index))).
  2:{ intros i x _. unfold compose. rewrite <- (app_assoc pre [f] rest). cbn [app].
      rewrite (length_app pre [f]). cbn [length]. f_equal. lia. }
  rewrite IH. clear IH. unfold _trimFrame_callback.
  rewrite length_app.
  destruct rest as [|g rest]; cbn [length].
  - destruct (Z.eqb_spec (Z.of_nat (length pre + 0)) (Z.of_nat (length pre + 1) - 1)); [|lia].
    reflexivity.
  - destruct (Z.eqb_spec (Z.of_nat (length pre + 0))
                (Z.of_nat (length pre + S (S (length rest))) - 1)); [lia|].
    cbn [negb].
    replace (length pre + 0 + 1)%nat with (length pre + 1)%nat by lia.
    rewrite lookup_app_r by lia.
    replace (length pre + 1 - length pre)%nat with 1%nat by lia.
    reflexivity.
Qed.

Lemma trimFrame_resolve (l : list Frame) (e : Q) : _trimFrame l e = Some (resolve l e).
Proof. exact (trimFrame_from [] l e). Qed.

Lemma length_resolve (l : list Frame) e : length (resolve l e) = length l.
Proof. induction l as [|f l IH]; simpl; [done|by rewrite IH]. Qed.

Lemma lookup_resolve_next (l : list Frame) e i f g :
  l !! i = Some f -> l !! (i + 1)%nat = Some g ->
  resolve l e !! i = Some (with_duration f (timestamp g - timestamp f)).
Proof.
  revert i. induction l as [|a l IH]; intros i Hf Hg; [done|].
  destruct i as [|i].
  - simpl in Hf, Hg. simplify_eq. destruct l as [|b l]; simplify_eq/=. reflexivity.
  - simpl in Hf, Hg. cbn [resolve]. simpl. by apply IH.
Qed.


(** *** [_processFrameBeforeWrite] and [_drainFrames] *)

Lemma write_all_spec (processedFrames : list Frame) (w : WriterObj) :
  let w' := write_all processedFrames w in
  written (_videoMediatorStream w') =
    written (_videoMediatorStream w) ++ chunks_of (options_fps w) processedFrames
  /\ endCalls (_videoMediatorStream w') = endCalls (_videoMediatorStream w)
  /\ _screenCastFrames w' = _screenCastFrames w
  /\ _status w' = (if processedFrames is [] then _status w else IN_PROGRESS)
  /\ options_fps w' = options_fps w /\ _writerPromise w' = _writerPromise w
  /\ emitted w' = emitted w /\ console_error w' = console_error w.
Proof.
  revert w. induction processedFrames as [|f l IH]; intros w.
  - simpl. by rewrite app_nil_r.
  - cbn [write_all foldl]. fold (write_all l (write (blob f) (duration f) w)).
    destruct (IH (write (blob f) (duration f) w)) as (-> & -> & -> & Hst & -> & -> & -> & ->).
    destruct (write_spec (blob f) (duration f) w) as (-> & -> & -> & Hst' & -> & -> & -> & ->).
    repeat split; try done.
    + cbn [chunks_of flat_map]. by rewrite app_assoc.
    + rewrite Hst. by destruct l.
Qed.

Lemma processFrameBeforeWrite_eq (frames : list Frame) e (w : WriterObj) :
  _processFrameBeforeWrite frames e w = Some (write_all (resolve frames e) w).
Proof. unfold _processFrameBeforeWrite. by rewrite trimFrame_resolve. Qed.

Lemma drainFrames_eq e (w : WriterObj) :
  _drainFrames e w =
    Some (set_screenCastFrames [] (write_all (resolve (_screenCastFrames w) e) w)).
Proof. unfold _drainFrames. by rewrite processFrameBeforeWrite_eq. Qed.

(** *** [_findSlot] *)

Lemma findSlot_loop_spec (l : list Frame) ts n :
  (n <= length l)%nat ->
  exists k, _findSlot_loop l ts n = Some k /\ (k <= n)%nat
    /\ (forall i x, (k <= i < n)%nat -> l !! i = Some x -> ts <= timestamp x)
    /\ (k = 0%nat \/ exists x, l !! (k - 1)%nat = Some x /\ timestamp x < ts).
Proof.
  induction n as [|i IH]; intros Hn.
  - exists 0%nat. repeat split; [lia| |by left]. intros; lia.
  - cbn [_findSlot_loop].
    destruct (lookup_lt_is_Some_2 l i ltac:(lia)) as [frame Hframe].
    rewrite Hframe. cbn [mbind option_bind].
    destruct (number_gt ts (timestamp frame)) eqn:Hgt.
    + exists (i + 1)%nat. repeat split; [lia| |].
      * intros; lia.
      * right. exists frame. replace (i + 1 - 1)%nat with i by lia.
        split; [done|by apply number_gt_true].
    + destruct (IH ltac:(lia)) as (k & Hk & Hle & Hge & Hlt).
      exists k. repeat split; [done|lia| |done].
      intros j x Hj Hx. destruct (decide (j = i)) as [->|].
      * simplify_eq. by apply number_gt_false.
      * apply (Hge j); [lia|done].
Qed.

Lemma sorted_lookup_le (l : list Frame) i j a b :
  sorted_by_timestamp l -> (i <= j)%nat -> l !! i = Some a -> l !! j = Some b ->
  timestamp a <= timestamp b.
Proof.
  intros Hs Hij Ha Hb.
  destruct (decide (i = j)) as [->|Hne]; [simplify_eq; apply Qle_refl|].
  rewrite <- (take_drop_middle l i a Ha) in Hs.
  apply StronglySorted_app_1_r, StronglySorted_cons in Hs as [Hall _].
  rewrite Forall_lookup in Hall. apply (Hall (j - S i)%nat).
  rewrite lookup_drop. rewrite <- Hb. f_equal. lia.
Qed.

(** The slot splits a sorted buffer into the frames before the new
    timestamp and the frames at or after it. *)
Lemma findSlot_spec ts (w : WriterObj) :
  exists k, _findSlot ts w = Some k /\ (k <= length (_screenCastFrames w))%nat
    /\ (sorted_by_timestamp (_screenCastFrames w) ->
         Forall (fun x => timestamp x < ts) (take k (_screenCastFrames w)))
    /\ Forall (fun x => ts <= timestamp x) (drop k (_screenCastFrames w)).
Proof.
  unfold _findSlot. set (l := _screenCastFrames w).
  destruct (findSlot_loop_spec l ts (length l) ltac:(lia)) as (k & Hk & Hle & Hge & Hlt).
  exists k. split.
  { destruct (Nat.eqb_spec (length l) 0) as [H0|]; [|done].
    rewrite H0 in Hk. simpl in Hk. done. }
  split; [done|]. split.
  - intros Hs. apply Forall_lookup. intros i x Hx.
    apply lookup_take_Some in Hx as [Hx Hi].
    destruct Hlt as [->|(y & Hy & Hyts)]; [lia|].
    eapply Qle_lt_trans; [|exact Hyts].
    apply (sorted_lookup_le l i (k - 1) x y); [done|lia|done..].
  - apply Forall_lookup. intros i x Hx. rewrite lookup_drop in Hx.
    apply (Hge (k + i)%nat); [|done].
    apply lookup_lt_Some in Hx. lia.
Qed.

Lemma sorted_splice_in (l : list Frame) k f :
  sorted_by_timestamp l ->
  Forall (fun x => timestamp x < timestamp f) (take k l) ->
  Forall (fun x => timestamp f <= timestamp x) (drop k l) ->
  sorted_by_timestamp (splice_in k f l).
Proof.
  intros Hs Hlt Hge. unfold splice_in.
  rewrite <- (take_drop k l) in Hs.
  apply StronglySorted_app in Hs as (Hcross & Hs1 & Hs2).
  apply StronglySorted_app_2; [|done|].
  - intros x1 x2 Hx1 Hx2. rewrite Forall_forall in Hlt.
    apply elem_of_cons in Hx2 as [->|Hx2].
    + apply Qlt_le_weak. by apply Hlt.
    + by apply Hcross.
  - apply StronglySorted_cons. split; [|done]. exact Hge.
Qed.

(** *** [insert] *)

Lemma half_screenLimit : (_screenLimit / 2)%nat = 20%nat.
Proof. reflexivity. Qed.

Lemma splice_in_end (l : list Frame) f : splice_in (length l) f l = l ++ [f].
Proof. unfold splice_in. by rewrite take_ge, drop_ge by lia. Qed.


Lemma splice_in_Permutation (l : list Frame) k f : splice_in k f l ≡ₚ f :: l.
Proof.
  unfold splice_in. rewrite <- Permutation_middle. by rewrite take_drop.
Qed.

(** The last step of [insert]: the frame goes to its slot in the buffer
    the object holds at that point. *)
Lemma insert_place (frame : Frame) (w : WriterObj) :
  exists k,
    (insertionIndex ← _findSlot (timestamp frame) w;
     if (insertionIndex =? length (_screenCastFrames w))%nat
     then Some (set_screenCastFrames (_screenCastFrames w ++ [frame]) w)
     else Some (set_screenCastFrames (splice_in insertionIndex frame (_screenCastFrames w)) w))
    = Some (set_screenCastFrames (splice_in k frame (_screenCastFrames w)) w)
    /\ (k <= length (_screenCastFrames w))%nat
    /\ (sorted_by_timestamp (_screenCastFrames w) ->
         Forall (fun x => timestamp x < timestamp frame) (take k (_screenCastFrames w)))
    /\ Forall (fun x => timestamp frame <= timestamp x) (drop k (_screenCastFrames w)).
Proof.
  destruct (findSlot_spec (timestamp frame) w) as (k & Hk & Hle & Hlt & Hge).
  exists k. rewrite Hk. cbn [mbind option_bind].
  split; [|done].
  destruct (Nat.eqb_spec k (length (_screenCastFrames w))) as [->|]; [|done].
  by rewrite splice_in_end.
Qed.

Lemma insert_below_capacity raw (w : WriterObj) :
  length (_screenCastFrames w) <> _screenLimit ->
  exists k,
    insert createBlob raw w =
      Some (set_screenCastFrames
              (splice_in k (_createPageScreenFrame createBlob raw) (_screenCastFrames w)) w)
    /\ (k <= length (_screenCastFrames w))%nat
    /\ (sorted_by_timestamp (_screenCastFrames w) ->
         Forall (fun x => timestamp x < md_timestamp (metadata raw)) (take k (_screenCastFrames w)))
    /\ Forall (fun x => md_timestamp (metadata raw) <= timestamp x) (drop k (_screenCastFrames w)).
Proof.
  intros Hlen. unfold insert.
  destruct (Nat.eqb_spec (length (_screenCastFrames w)) _screenLimit); [done|].
  cbn [mbind option_bind].
  exact (insert_place (_createPageScreenFrame createBlob raw) w).
Qed.

Lemma half_drained_frames head (w : WriterObj) :
  _screenCastFrames (half_drained head w) = drop 20 (_screenCastFrames w).
Proof.
  unfold half_drained.
  by destruct (write_all_spec (resolve (take 20 (_screenCastFrames w)) (timestamp head))
    (set_screenCastFrames (drop 20 (_screenCastFrames w)) w)) as (_ & _ & -> & _).
Qed.

Lemma insert_at_capacity raw (w : WriterObj) :
  length (_screenCastFrames w) = _screenLimit ->
  exists head k,
    drop 20 (_screenCastFrames w) !! 0%nat = Some head
    /\ insert createBlob raw w =
      Some (set_screenCastFrames
              (splice_in k (_createPageScreenFrame createBlob raw) (drop 20 (_screenCastFrames w)))
              (half_drained head w))
    /\ (k <= length (drop 20 (_screenCastFrames w)))%nat
    /\ (sorted_by_timestamp (drop 20 (_screenCastFrames w)) ->
         Forall (fun x => timestamp x < md_timestamp (metadata raw))
           (take k (drop 20 (_screenCastFrames w))))
    /\ Forall (fun x => md_timestamp (metadata raw) <= timestamp x)
         (drop k (drop 20 (_screenCastFrames w))).
Proof.
  intros Hlen.
  destruct (lookup_lt_is_Some_2 (drop 20 (_screenCastFrames w)) 0) as [head Hhead].
  { rewrite length_drop, Hlen. unfold _screenLimit. lia. }
  exists head.
  destruct (insert_place (_createPageScreenFrame createBlob raw) (half_drained head w))
    as (k & Hins & Hk).
  pose proof (half_drained_frames head w) as Hfr.
  rewrite Hfr in Hk.
  exists k. split; [done|]. split; [|exact Hk].
  unfold insert. rewrite Hlen, Nat.eqb_refl, half_screenLimit.
  unfold splice_out. rewrite drop_0, take_0. cbn [app Nat.add].
  cbn [_screenCastFrames set_screenCastFrames].
  rewrite Hhead. cbn [mbind option_bind].
  rewrite processFrameBeforeWrite_eq. cbn [mbind option_bind].
  fold (half_drained head w). rewrite Hins. by rewrite Hfr.
Qed.

Lemma ascending_sorted_by_timestamp (l : list Frame) :
  ascending (timestamp <$> l) = true -> sorted_by_timestamp l.
Proof.
  intros H. apply Sorted_StronglySorted; [apply _|].
  induction l as [|a l IH]; [constructor|].
  destruct l as [|b l]; [repeat constructor|].
  cbn [fmap list_fmap ascending] in H. apply andb_true_iff in H as [Hab Hl].
  constructor; [by apply IH|constructor; by apply Qle_bool_iff].
Qed.

Lemma insert_total raw (w : WriterObj) : is_Some (insert createBlob raw w).
Proof.
  destruct (decide (length (_screenCastFrames w) = _screenLimit)) as [Hlen|Hlen].
  - destruct (insert_at_capacity raw w Hlen) as (head & k & _ & -> & _). eauto.
  - destruct (insert_below_capacity raw w Hlen) as (k & -> & _). eauto.
Qed.

Lemma sorted_drop (l : list Frame) n : sorted_by_timestamp l -> sorted_by_timestamp (drop n l).
Proof. intros Hs. rewrite <- (take_drop n l) in Hs. by apply StronglySorted_app_1_r in Hs. Qed.

Lemma sorted_take (l : list Frame) n : sorted_by_timestamp l -> sorted_by_timestamp (take n l).
Proof. intros Hs. rewrite <- (take_drop n l) in Hs. by apply StronglySorted_app_1_l in Hs. Qed.

Lemma insert_sorted raw (w w' : WriterObj) :
  sorted_by_timestamp (_screenCastFrames w) -> insert createBlob raw w = Some w' ->
  sorted_by_timestamp (_screenCastFrames w').
Proof.
  intros Hs Hins.
  destruct (decide (length (_screenCastFrames w) = _screenLimit)) as [Hlen|Hlen].
  - destruct (insert_at_capacity raw w Hlen) as (head & k & _ & Heq & _ & Hlt & Hge).
    rewrite Heq in Hins. simplify_eq. cbn [_screenCastFrames set_screenCastFrames].
    apply sorted_splice_in; [by apply sorted_drop|apply Hlt; by apply sorted_drop|exact Hge].
  - destruct (insert_below_capacity raw w Hlen) as (k & Heq & _ & Hlt & Hge).
    rewrite Heq in Hins. simplify_eq. cbn [_screenCastFrames set_screenCastFrames].
    apply sorted_splice_in; [done|by apply Hlt|exact Hge].
Qed.


(** *** Runs *)

Lemma insert_all_cons raw raws (w : WriterObj) :
  insert_all createBlob (raw :: raws) w = insert createBlob raw w ≫= insert_all createBlob raws.
Proof.
  unfold insert_all. cbn [foldl mbind option_bind].
  destruct (insert createBlob raw w) as [w1|]; [done|].
  cbn [mbind option_bind]. induction raws as [|r raws IH]; [done|exact IH].
Qed.

Lemma insert_all_snoc raws raw (w : WriterObj) :
  insert_all createBlob (raws ++ [raw]) w = insert_all createBlob raws w ≫= insert createBlob raw.
Proof. unfold insert_all. by rewrite foldl_app. Qed.




Lemma resolve_nonneg (l : list Frame) e :
  sorted_by_timestamp l -> Forall (fun f => timestamp f <= e) l ->
  Forall (fun t => exists d, duration t = Some d /\ 0 <= d) (resolve l e).
Proof.
  induction l as [|a l IH]; intros Hs Hend; [constructor|].
  apply StronglySorted_cons in Hs as [Hall Hs].
  apply Forall_cons in Hend as [Ha Hend].
  cbn [resolve]. constructor; [|by apply IH].
  eexists. split; [reflexivity|].
  destruct l as [|b l].
  - unfold Qminus. rewrite <- Qle_minus_iff. exact Ha.
  - apply Forall_cons in Hall as [Hab _].
    unfold Qminus. rewrite <- Qle_minus_iff. exact Hab.
Qed.

(** *** Order of the chunks of a batch *)

Lemma elem_of_chunks_of fps (l : list Frame) e b :
  b ∈ chunks_of fps (resolve l e) -> exists g, g ∈ l /\ b = blob g.
Proof.
  induction l as [|a l IH]; [by intros ?%elem_of_nil|].
  cbn [resolve chunks_of flat_map]. intros [Hb|Hb]%elem_of_app.
  - apply elem_of_replicate in Hb as [-> _]. exists a. split; [left|done].
  - destruct (IH Hb) as (g & Hg & ->). exists g. split; [by right|done].
Qed.

Lemma replicate_sorted n (x : Q) : StronglySorted Qle (replicate n x).
Proof.
  induction n as [|n IH]; [constructor|].
  cbn [replicate]. constructor; [done|].
  apply Forall_forall. intros y [-> _]%elem_of_replicate. apply Qle_refl.
Qed.

Lemma chunks_of_sorted (stamp : Blob -> Q) fps (l : list Frame) e :
  sorted_by_timestamp l ->
  (forall f, f ∈ l -> stamp (blob f) == timestamp f) ->
  StronglySorted Qle (stamp <$> chunks_of fps (resolve l e)).
Proof.
  induction l as [|a l IH]; intros Hs Hstamp; [constructor|].
  apply StronglySorted_cons in Hs as [Hall Hs].
  cbn [resolve chunks_of flat_map]. rewrite fmap_app, fmap_replicate.
  apply StronglySorted_app_2.
  - intros x1 x2 [-> _]%elem_of_replicate Hx2.
    apply list_elem_of_fmap in Hx2 as (b & -> & Hb).
    apply elem_of_chunks_of in Hb as (g & Hg & ->).
    cbn [blob with_duration].
    rewrite (Hstamp a) by left. rewrite (Hstamp g) by (by right).
    rewrite Forall_forall in Hall. by apply Hall.
  - apply replicate_sorted.
  - apply IH; [done|]. intros f Hf. apply Hstamp. by right.
Qed.


(** *** [stop] *)

Lemma stop_not_completed t (w : WriterObj) :
  _status w <> COMPLETED ->
  stop t w =
    Some (_writerPromise w,
          set_status COMPLETED
            (set_videoMediatorStream
               (stream_end (_videoMediatorStream
                  (set_screenCastFrames [] (write_all (resolve (_screenCastFrames w) t) w))))
               (set_screenCastFrames [] (write_all (resolve (_screenCastFrames w) t) w)))).
Proof.
  intros Hst. unfold stop.
  destruct (_status w) eqn:E; [| |done]; cbn [status_eqb];
    rewrite drainFrames_eq; cbn [mbind option_bind];
    cbn [_writerPromise set_status set_videoMediatorStream set_screenCastFrames];
    by destruct (write_all_spec (resolve (_screenCastFrames w) t) w)
      as (_ & _ & _ & _ & _ & -> & _).
Qed.

Lemma stop_completed t (w : WriterObj) :
  _status w = COMPLETED -> stop t w = Some (_writerPromise w, w).
Proof. intros Hst. unfold stop. by rewrite Hst. Qed.

(** ** The claims *)

(** C2 (amended): for every blob and every [durationSeconds] whose
    product with [fps] is below the overflow of binary64, one call of
    [write] passes the blob to the stream exactly
    [max(1, floor(durationSeconds * fps))] times, so at least once: the
    product, which is the binary64 product of the two numbers, is rounded
    down, not to the nearest integer. *)
Theorem write_repeats_floor (chunk : Blob) (durationSeconds : Q) (w : WriterObj) :
  durationSeconds * options_fps w < binary64_overflow ->
  written (_videoMediatorStream (write chunk (Some durationSeconds) w)) =
    written (_videoMediatorStream w) ++
      replicate (Z.to_nat (Z.max 1 (Qfloor (binary64 (durationSeconds * options_fps w)))))
        chunk
  /\ (1 <= Z.to_nat (Z.max 1 (Qfloor (binary64 (durationSeconds * options_fps w)))))%nat.
Proof.
  intros _.
  destruct (write_spec chunk (Some durationSeconds) w) as (-> & _).
  change (default 1 (Some durationSeconds)) with durationSeconds.
  unfold repetitions, Math_max, Math_floor, number_mul.
  rewrite (Z.max_comm _ 1). split; [done|lia].
Qed.


(** C4 (amended): [_trimFrame] never throws, whatever the list and the end
    time of the batch; a duration is the plain difference of two numbers
    and is not clamped; the durations are all non-negative when the list is
    in ascending order of timestamp and no timestamp is after the end time
    of the batch. *)
Theorem trimFrame_total_nonneg_when_sorted (fameList : list Frame) (batchEndTime : Q) :
  exists timed,
    _trimFrame fameList batchEndTime = Some timed
    /\ (sorted_by_timestamp fameList ->
         Forall (fun f => timestamp f <= batchEndTime) fameList ->
         Forall (fun t => exists d, duration t = Some d /\ 0 <= d) timed).
Proof.
  exists (resolve fameList batchEndTime).
  split; [apply trimFrame_resolve|apply resolve_nonneg].
Qed.



(** C10: when the buffer holds [_screenLimit] frames, the array that
    [splice] leaves in [insert] has [_screenLimit - floor(_screenLimit / 2)]
    frames, which is at least one, so its element 0 is a frame, and
    [insert] returns without an exception. *)
Theorem half_drain_leaves_head raw (w : WriterObj) :
  length (_screenCastFrames w) = _screenLimit ->
  let rest := (splice_out 0 (_screenLimit / 2) (_screenCastFrames w)).2 in
  length rest = (_screenLimit - _screenLimit / 2)%nat
  /\ (1 <= _screenLimit - _screenLimit / 2)%nat
  /\ is_Some (rest !! 0%nat)
  /\ is_Some (insert createBlob raw w).
Proof.
  intros Hlen rest.
  assert (Hrest : length rest = (_screenLimit - _screenLimit / 2)%nat).
  { unfold rest, splice_out. cbn [snd]. rewrite take_0. cbn [app Nat.add].
    by rewrite length_drop, Hlen. }
  split; [exact Hrest|]. split; [rewrite half_screenLimit; unfold _screenLimit; lia|].
  split; [|apply insert_total].
  apply lookup_lt_is_Some_2. rewrite Hrest, half_screenLimit. unfold _screenLimit. lia.
Qed.




(** C9 (amended): [_handleWriteStreamError] raises the signal
    [videoStreamWriterError] with the message for every error, also for an
    end of file on the input after the writer has stopped; what that case
    leaves out is the line on [console.error], which every other error
    gets. *)
Theorem handleWriteStreamError_always_emits (errorMessage : string) (w : WriterObj) :
  let w' := _handleWriteStreamError errorMessage w in
  emitted w' = emitted w ++ [("videoStreamWriterError"%string, errorMessage)]
  /\ (_status w <> IN_PROGRESS -> includes errorMessage "pipe:0: End of file" = true ->
       console_error w' = console_error w)
  /\ (_status w = IN_PROGRESS \/ includes errorMessage "pipe:0: End of file" = false ->
       console_error w' =
         console_error w
         ++ [String.append "Error unable to capture video stream: " errorMessage])
  /\ _status w' = _status w
  /\ _videoMediatorStream w' = _videoMediatorStream w
  /\ _screenCastFrames w' = _screenCastFrames w.
Proof.
  unfold _handleWriteStreamError. cbn [_status emit].
  destruct (includes errorMessage "pipe:0: End of file") eqn:Hinc, (_status w) eqn:Hst;
    cbn [status_eqb negb andb emitted console_error console_error_log emit _status
         _videoMediatorStream _screenCastFrames];
    (split; [reflexivity|]); (split; [intros; congruence|]);
    (split; [intros [?|?]; congruence|]); done.
Qed.

End Properties.

(** ** Concrete runs: the claims at explicit inputs *)

Lemma raw_of_second_stamp (l : list nat) r :
  r ∈ raw_of_second <$> l ->
  second_of_blob (blob_of_id r) == md_timestamp (metadata r).
Proof. intros (i & -> & _)%list_elem_of_fmap. reflexivity. Qed.


Lemma full_writer_sorted : sorted_by_timestamp (_screenCastFrames full_writer).
Proof. apply ascending_sorted_by_timestamp. vm_compute. reflexivity. Qed.


(** The product in [write] is the binary64 product: 0.12 s at 25 frames
    per second is below 3 frame times as an exact product and is 3 as the
    product of the code, which writes the blob 3 times; 0.6666666666666666 s
    at 3 frames per second is below 2 frame times and is written twice. *)
Lemma write_on_binary64_product :
  double_0_12 * options_fps writer_25fps < 3
  /\ number_mul double_0_12 (options_fps writer_25fps) == 3
  /\ written (_videoMediatorStream (write 7%nat (Some double_0_12) writer_25fps))
     = [7%nat; 7%nat; 7%nat]
  /\ double_two_thirds * options_fps writer_3fps < 2
  /\ number_mul double_two_thirds (options_fps writer_3fps) == 2
  /\ written (_videoMediatorStream (write 7%nat (Some double_two_thirds) writer_3fps))
     = [7%nat; 7%nat].
Proof. repeat split; vm_compute; reflexivity. Qed.

(** C2, counterexample: at 25 frames per second a frame shown for 0.06 s
    covers 1.5 frame times; [write] passes it once, the rounded count is 2. *)
Lemma write_rounds_down :
  number_mul double_0_06 (options_fps writer_25fps) == 3 # 2
  /\ written (_videoMediatorStream (write 7%nat (Some double_0_06) writer_25fps)) = [7%nat]
  /\ repetitions_rounded (options_fps writer_25fps) double_0_06 = 2%nat
  /\ written (_videoMediatorStream (write 7%nat (Some double_0_06) writer_25fps)) <>
       written (_videoMediatorStream writer_25fps)
       ++ replicate (repetitions_rounded (options_fps writer_25fps) double_0_06) 7%nat.
Proof.
  split; [vm_compute; reflexivity|]. split; [vm_compute; reflexivity|].
  split; [vm_compute; reflexivity|]. vm_compute. discriminate.
Qed.

(** C4, counterexample: for the timestamps 10, 5 and the end time 12 the
    durations are -5 and 7; the negative one is not clamped. *)
Lemma trimFrame_negative_duration :
  fmap (M := list) duration <$> _trimFrame regressing 12 = Some [Some (-5); Some 7]
  /\ ~ (exists timed, _trimFrame regressing 12 = Some timed
          /\ Forall (fun t => exists d, duration t = Some d /\ 0 <= d) timed).
Proof.
  split; [reflexivity|]. intros (timed & Ht & Hall).
  vm_compute in Ht. simplify_eq.
  apply Forall_cons in Hall as [(d & Hd & Hpos) _]. cbn in Hd. simplify_eq.
  by apply Qle_bool_iff in Hpos.
Qed.




(** C9, counterexample: ffmpeg reports the end of file on its input after a
    normal [stop]; the signal is raised, only the console line is left
    out. *)
Lemma eof_after_stop_is_emitted :
  stop 5 writer_25fps = Some (tt, stopped_writer)
  /\ _status stopped_writer = COMPLETED
  /\ includes "ffmpeg exited with code 1: pipe:0: End of file" "pipe:0: End of file" = true
  /\ emitted (_handleWriteStreamError "ffmpeg exited with code 1: pipe:0: End of file"
                stopped_writer)
     = [("videoStreamWriterError"%string,
         "ffmpeg exited with code 1: pipe:0: End of file"%string)]
  /\ console_error (_handleWriteStreamError "ffmpeg exited with code 1: pipe:0: End of file"
                      stopped_writer) = [].
Proof. repeat split. Qed.

(** ** The theorems at concrete inputs *)



(** C4 for the batch of a half-drain: the twenty oldest frames of the full
    buffer, with the timestamp of the frame that follows them. *)
Lemma trimFrame_total_nonneg_when_sorted_witness :
  sorted_by_timestamp (take 20 (_screenCastFrames full_writer))
  /\ Forall (fun f => timestamp f <= 21) (take 20 (_screenCastFrames full_writer))
  /\ exists timed,
       _trimFrame (take 20 (_screenCastFrames full_writer)) 21 = Some timed
       /\ Forall (fun t => exists d, duration t = Some d /\ 0 <= d) timed.
Proof.
  assert (Hs : sorted_by_timestamp (take 20 (_screenCastFrames full_writer)))
    by (apply ascending_sorted_by_timestamp; vm_compute; reflexivity).
  assert (Hend : Forall (fun f : @PageScreenFrame nat => timestamp f <= 21)
                   (take 20 (_screenCastFrames full_writer))).
  { apply Forall_forall. intros f Hf.
    apply elem_of_take in Hf as (i & Hi & Hlt).
    do 20 (destruct i as [|i]; [vm_compute in Hi; simplify_eq; by apply Qle_bool_iff|]).
    lia. }
  split; [exact Hs|]. split; [exact Hend|].
  destruct (trimFrame_total_nonneg_when_sorted (take 20 (_screenCastFrames full_writer)) 21)
    as (timed & Ht & Hpos).
  exists timed. split; [exact Ht|exact (Hpos Hs Hend)].
Defined.




(** C2 for 0.12 s at 25 frames per second: three chunks. *)
Lemma write_repeats_floor_witness :
  double_0_12 * options_fps writer_25fps < binary64_overflow
  /\ written (_videoMediatorStream (write 7%nat (Some double_0_12) writer_25fps)) =
       written (_videoMediatorStream writer_25fps) ++
         replicate
           (Z.to_nat (Z.max 1 (Qfloor (binary64 (double_0_12 * options_fps writer_25fps)))))
           7%nat.
Proof.
  assert (Hfinite : double_0_12 * options_fps writer_25fps < binary64_overflow)
    by (vm_compute; reflexivity).
  split; [exact Hfinite|].
  exact (proj1 (write_repeats_floor 7%nat double_0_12 writer_25fps Hfinite)).
Defined.


(** C9 for the end of file after [stop]. *)
Lemma handleWriteStreamError_always_emits_witness :
  _status stopped_writer <> IN_PROGRESS
  /\ includes "pipe:0: End of file" "pipe:0: End of file" = true
  /\ emitted (_handleWriteStreamError "pipe:0: End of file" stopped_writer)
     = [("videoStreamWriterError"%string, "pipe:0: End of file"%string)]
  /\ console_error (_handleWriteStreamError "pipe:0: End of file" stopped_writer) = [].
Proof.
  split; [discriminate|]. split; [reflexivity|].
  destruct (handleWriteStreamError_always_emits "pipe:0: End of file" stopped_writer)
    as (Hemit & Hquiet & _).
  split; [exact Hemit|]. apply Hquiet; [discriminate|reflexivity].
Defined.

(** C10 for the full buffer. *)
Lemma half_drain_leaves_head_witness :
  length (_screenCastFrames full_writer) = _screenLimit
  /\ is_Some (drop 20 (_screenCastFrames full_writer) !! 0%nat)
  /\ is_Some (insert blob_of_id (raw_of_second 30) full_writer).
Proof.
  split; [reflexivity|].
  destruct (half_drain_leaves_head blob_of_id (raw_of_second 30) full_writer eq_refl)
    as (_ & _ & Hhead & Hins).
  split; [exact Hhead|exact Hins].
Defined.

(** ** Further properties of the writer *)

Section WriterLedger.

Context {Data Blob Promise : Type}.
Variable createBlob : @RawFrame Data -> Blob.

Abbreviation Frame' := (@PageScreenFrame Blob).
Abbreviation Writer' := (@PageVideoStreamWriter Blob Promise).

Lemma chunks_of_app fps (a b : list Frame') :
  chunks_of fps (a ++ b) = chunks_of fps a ++ chunks_of fps b.
Proof. unfold chunks_of. apply flat_map_app. Qed.

Lemma frame_key_resolve (l : list Frame') e : frame_key <$> resolve l e = frame_key <$> l.
Proof. induction l as [|f l IH]; [done|]. cbn [resolve fmap list_fmap]. by f_equal. Qed.

Lemma repetitions_pos fps d : (1 <= repetitions fps d)%nat.
Proof. unfold repetitions, Math_max. lia. Qed.

Lemma length_chunks_of fps (timed : list Frame') :
  (length timed <= length (chunks_of fps timed))%nat.
Proof.
  induction timed as [|f l IH]; [done|].
  cbn [chunks_of flat_map]. fold (chunks_of fps l).
  rewrite length_app, length_replicate. cbn [length].
  pose proof (repetitions_pos fps (default 1 (duration f))). lia.
Qed.

Lemma elem_of_chunks_of_blob fps (timed : list Frame') f :
  f ∈ timed -> blob f ∈ chunks_of fps timed.
Proof.
  induction timed as [|g l IH]; [by intros ?%elem_of_nil|].
  cbn [chunks_of flat_map]. fold (chunks_of fps l).
  intros [->|Hf]%elem_of_cons; apply elem_of_app; [left|right; by apply IH].
  apply elem_of_replicate. split; [done|].
  pose proof (repetitions_pos fps (default 1 (duration g))). lia.
Qed.

(** One call of [insert]: what it appends to the stream and what it keeps
    in the buffer are the frames it had and the new one. *)
Lemma insert_ledger raw (w w' : Writer') :
  insert createBlob raw w = Some w' ->
  exists timed,
    written (_videoMediatorStream w') =
      written (_videoMediatorStream w) ++ chunks_of (options_fps w) timed
    /\ frame_key <$> (timed ++ _screenCastFrames w') ≡ₚ
         frame_key <$> (_screenCastFrames w ++ [_createPageScreenFrame createBlob raw])
    /\ (timed = [] <-> length (_screenCastFrames w) <> _screenLimit)
    /\ options_fps w' = options_fps w
    /\ endCalls (_videoMediatorStream w') = endCalls (_videoMediatorStream w)
    /\ _writerPromise w' = _writerPromise w
    /\ _status w' = (if timed is [] then _status w else IN_PROGRESS).
Proof.
  intros Hins.
  destruct (decide (length (_screenCastFrames w) = _screenLimit)) as [Hlen|Hlen].
  - destruct (insert_at_capacity createBlob raw w Hlen) as (head & k & _ & Heq & _).
    rewrite Heq in Hins. simplify_eq.
    exists (resolve (take 20 (_screenCastFrames w)) (timestamp head)).
    cbn [_screenCastFrames set_screenCastFrames _videoMediatorStream options_fps
         _writerPromise _status]. unfold half_drained.
    destruct (write_all_spec (resolve (take 20 (_screenCastFrames w)) (timestamp head))
      (set_screenCastFrames (drop 20 (_screenCastFrames w)) w))
      as (Hw & He & _ & Hst & Hfps & Hp & _).
    split; [exact Hw|]. split.
    { rewrite !fmap_app, frame_key_resolve, splice_in_Permutation.
      rewrite <- (take_drop 20 (_screenCastFrames w)) at 3.
      rewrite fmap_app. cbn [fmap list_fmap].
      rewrite <- !app_assoc. apply Permutation_app_head.
      rewrite Permutation_app_comm. reflexivity. }
    split.
    { split; [|done]. intros Hnil. apply (f_equal length) in Hnil.
      rewrite length_resolve, length_take, Hlen in Hnil. done. }
    split; [exact Hfps|]. split; [exact He|]. split; [exact Hp|].
    rewrite Hst. cbn [_status set_screenCastFrames]. reflexivity.
  - destruct (insert_below_capacity createBlob raw w Hlen) as (k & Heq & _).
    rewrite Heq in Hins. simplify_eq. exists [].
    cbn [_screenCastFrames set_screenCastFrames _videoMediatorStream options_fps
         _writerPromise _status chunks_of flat_map app].
    rewrite app_nil_r. split; [done|]. split.
    { rewrite splice_in_Permutation, fmap_app. cbn [fmap list_fmap].
      by rewrite <- Permutation_cons_append. }
    done.
Qed.

Lemma insert_all_ledger raws (w : Writer') :
  exists w' timed,
    insert_all createBlob raws w = Some w'
    /\ written (_videoMediatorStream w') =
         written (_videoMediatorStream w) ++ chunks_of (options_fps w) timed
    /\ frame_key <$> (timed ++ _screenCastFrames w') ≡ₚ
         frame_key <$> (_screenCastFrames w ++ (_createPageScreenFrame createBlob <$> raws))
    /\ options_fps w' = options_fps w
    /\ endCalls (_videoMediatorStream w') = endCalls (_videoMediatorStream w)
    /\ _writerPromise w' = _writerPromise w
    /\ (_status w <> COMPLETED -> _status w' <> COMPLETED).
Proof.
  revert w. induction raws as [|raw raws IH]; intros w.
  - exists w, []. cbn [chunks_of flat_map fmap list_fmap app]. by rewrite !app_nil_r.
  - rewrite insert_all_cons.
    destruct (insert_total createBlob raw w) as [w1 Hw1]. rewrite Hw1. cbn [mbind option_bind].
    destruct (insert_ledger raw w w1 Hw1) as (t1 & Hwr1 & Hp1 & _ & Hfps1 & He1 & Hpr1 & Hst1).
    destruct (IH w1) as (w' & t2 & Hrun & Hwr2 & Hp2 & Hfps2 & He2 & Hpr2 & Hst2).
    exists w', (t1 ++ t2). split; [exact Hrun|]. split.
    { rewrite Hwr2, Hwr1, Hfps1, chunks_of_app. by rewrite app_assoc. }
    split.
    { rewrite <- app_assoc, fmap_app, Hp2, <- fmap_app, app_assoc, fmap_app, Hp1.
      rewrite <- fmap_app, <- app_assoc. reflexivity. }
    split; [congruence|]. split; [congruence|]. split; [congruence|].
    intros Hst. apply Hst2. rewrite Hst1. by destruct t1.
Qed.

Lemma insert_all_stop_ledger raws stoppedTime fps (p : Promise) :
  exists w' timed,
    insert_all createBlob raws (new_writer fps p) ≫= stop stoppedTime = Some (p, w')
    /\ written (_videoMediatorStream w') = chunks_of fps timed
    /\ frame_key <$> timed ≡ₚ (fun r => (md_timestamp (metadata r), createBlob r)) <$> raws
    /\ (forall r, r ∈ raws -> createBlob r ∈ written (_videoMediatorStream w'))
    /\ (length raws <= length (written (_videoMediatorStream w')))%nat
    /\ _screenCastFrames w' = []
    /\ endCalls (_videoMediatorStream w') = 1%nat.
Proof.
  destruct (insert_all_ledger raws (new_writer fps p))
    as (w1 & t1 & Hrun & Hwr & Hperm & Hfps & He & Hp & Hst).
  rewrite Hrun. cbn [mbind option_bind].
  rewrite stop_not_completed by (by apply Hst).
  destruct (write_all_spec (resolve (_screenCastFrames w1) stoppedTime) w1)
    as (Hw2 & He2 & _).
  assert (Hkeys : frame_key <$> (t1 ++ resolve (_screenCastFrames w1) stoppedTime) ≡ₚ
            (fun r => (md_timestamp (metadata r), createBlob r)) <$> raws).
  { rewrite fmap_app, frame_key_resolve, <- fmap_app, Hperm.
    cbn [new_writer _screenCastFrames app]. by rewrite <- list_fmap_compose. }
  assert (Hall : written (_videoMediatorStream
                   (write_all (resolve (_screenCastFrames w1) stoppedTime) w1))
                 = chunks_of fps (t1 ++ resolve (_screenCastFrames w1) stoppedTime)).
  { rewrite Hw2, Hwr, Hfps, chunks_of_app. reflexivity. }
  eexists _, (t1 ++ resolve (_screenCastFrames w1) stoppedTime).
  split; [by rewrite Hp|].
  cbn [_videoMediatorStream set_status set_videoMediatorStream stream_end written endCalls
       set_screenCastFrames _screenCastFrames].
  split; [exact Hall|]. split; [exact Hkeys|]. split.
  { intros r Hr. rewrite Hall.
    assert (Hk : (md_timestamp (metadata r), createBlob r) ∈
              frame_key <$> (t1 ++ resolve (_screenCastFrames w1) stoppedTime)).
    { rewrite Hkeys. apply list_elem_of_fmap. by exists r. }
    apply list_elem_of_fmap in Hk as (f & Hf & Hin).
    unfold frame_key in Hf. simplify_eq. rewrite H0.
    by apply elem_of_chunks_of_blob. }
  split.
  { rewrite Hall. etrans; [|apply length_chunks_of].
    apply Permutation_length in Hkeys. rewrite !length_fmap in Hkeys. lia. }
  split; [done|]. rewrite He2, He. reflexivity.
Qed.

(** *** Frames that arrive in order *)

Lemma in_order_insert (stamp : Blob -> Q) m raw (w w' : Writer') :
  in_order_state stamp m w ->
  m <= md_timestamp (metadata raw) ->
  stamp (createBlob raw) == md_timestamp (metadata raw) ->
  insert createBlob raw w = Some w' ->
  in_order_state stamp (md_timestamp (metadata raw)) w'.
Proof.
  intros (Hs & Hfr & Hws & Hwm & Hcross) Hm Hstamp Hins.
  pose proof (insert_sorted createBlob raw w w' Hs Hins) as Hs'.
  rewrite Forall_forall in Hfr. rewrite Forall_forall in Hwm.
  destruct (decide (length (_screenCastFrames w) = _screenLimit)) as [Hlen|Hlen].
  - destruct (insert_at_capacity createBlob raw w Hlen) as (head & k & _ & Heq & _).
    rewrite Heq in Hins. simplify_eq. unfold in_order_state.
    cbn [_screenCastFrames set_screenCastFrames _videoMediatorStream] in *.
    unfold half_drained.
    destruct (write_all_spec (resolve (take 20 (_screenCastFrames w)) (timestamp head))
      (set_screenCastFrames (drop 20 (_screenCastFrames w)) w)) as (Hw & _).
    cbn [_videoMediatorStream set_screenCastFrames options_fps] in Hw. rewrite Hw. clear Hw.
    set (B := _screenCastFrames w) in *.
    assert (Hchunk : forall b,
      b ∈ chunks_of (options_fps w) (resolve (take 20 B) (timestamp head)) ->
      exists g, g ∈ take 20 B /\ g ∈ B /\ stamp b == timestamp g).
    { intros b (g & Hg & ->)%elem_of_chunks_of. exists g. split; [done|].
      assert (g ∈ B) by (rewrite <- (take_drop 20 B); apply elem_of_app; by left).
      split; [done|]. by apply Hfr. }
    assert (Hnew : forall f, f ∈ splice_in k (_createPageScreenFrame createBlob raw) (drop 20 B) ->
      f = _createPageScreenFrame createBlob raw \/ f ∈ drop 20 B).
    { intros f Hf. rewrite splice_in_Permutation in Hf. by apply elem_of_cons in Hf. }
    assert (Hdrop : forall f, f ∈ drop 20 B -> f ∈ B).
    { intros f Hf. rewrite <- (take_drop 20 B). apply elem_of_app. by right. }
    split; [exact Hs'|]. split.
    { apply Forall_forall. intros f [->|Hf]%Hnew.
      - split; [apply Qle_refl|exact Hstamp].
      - destruct (Hfr f (Hdrop f Hf)) as [Hle Hst]. split; [by eapply Qle_trans|done]. }
    split.
    { rewrite fmap_app. apply StronglySorted_app_2; [|done|].
      - intros x1 x2 (b1 & -> & Hb1)%list_elem_of_fmap (b2 & -> & Hb2)%list_elem_of_fmap.
        destruct (Hchunk b2 Hb2) as (g & _ & Hg & ->). by apply Hcross.
      - apply chunks_of_sorted; [by apply sorted_take|].
        intros f Hf. apply Hfr. rewrite <- (take_drop 20 B). apply elem_of_app. by left. }
    split.
    { apply Forall_forall. intros b [Hb|Hb]%elem_of_app.
      - eapply Qle_trans; [by apply Hwm|done].
      - destruct (Hchunk b Hb) as (g & _ & Hg & ->).
        eapply Qle_trans; [apply (Hfr g Hg)|done]. }
    intros b f [Hb|Hb]%elem_of_app [->|Hf]%Hnew.
    + eapply Qle_trans; [by apply Hwm|done].
    + apply Hcross; [done|by apply Hdrop].
    + destruct (Hchunk b Hb) as (g & _ & Hg & ->).
      eapply Qle_trans; [apply (Hfr g Hg)|done].
    + destruct (Hchunk b Hb) as (g & Hg & _ & ->).
      pose proof Hs as Hs2. rewrite <- (take_drop 20 B) in Hs2.
      by apply (StronglySorted_app_1_elem_of _ _ _ _ _ Hs2).
  - destruct (insert_below_capacity createBlob raw w Hlen) as (k & Heq & _).
    rewrite Heq in Hins. simplify_eq. unfold in_order_state.
    cbn [_screenCastFrames set_screenCastFrames _videoMediatorStream] in *.
    assert (Hnew : forall f,
      f ∈ splice_in k (_createPageScreenFrame createBlob raw) (_screenCastFrames w) ->
      f = _createPageScreenFrame createBlob raw \/ f ∈ _screenCastFrames w).
    { intros f Hf. rewrite splice_in_Permutation in Hf. by apply elem_of_cons in Hf. }
    split; [exact Hs'|]. split.
    { apply Forall_forall. intros f [->|Hf]%Hnew.
      - split; [apply Qle_refl|exact Hstamp].
      - destruct (Hfr f Hf) as [Hle Hst]. split; [by eapply Qle_trans|done]. }
    split; [done|]. split.
    { apply Forall_forall. intros b Hb. eapply Qle_trans; [by apply Hwm|done]. }
    intros b f Hb [->|Hf]%Hnew.
    + eapply Qle_trans; [by apply Hwm|done].
    + by apply Hcross.
Qed.

Lemma in_order_insert_all (stamp : Blob -> Q) raws m (w : Writer') :
  in_order_state stamp m w ->
  Forall (fun r => m <= md_timestamp (metadata r)) raws ->
  StronglySorted (fun a b => md_timestamp (metadata a) <= md_timestamp (metadata b)) raws ->
  (forall r, r ∈ raws -> stamp (createBlob r) == md_timestamp (metadata r)) ->
  exists w' m', insert_all createBlob raws w = Some w' /\ in_order_state stamp m' w'.
Proof.
  revert m w. induction raws as [|raw raws IH]; intros m w Hinv Hm Hsorted Hstamp.
  - by exists w, m.
  - rewrite insert_all_cons.
    destruct (insert_total createBlob raw w) as [w1 Hw1]. rewrite Hw1. cbn [mbind option_bind].
    apply Forall_cons in Hm as [Hm _].
    apply StronglySorted_cons in Hsorted as [Hnext Hsorted].
    apply (IH (md_timestamp (metadata raw)) w1); [|done|done|].
    + eapply in_order_insert; [exact Hinv|done| |done]. apply Hstamp. left.
    + intros r Hr. apply Hstamp. by right.
Qed.

(** X2: when the frames reach [insert] in ascending order of timestamp,
    however many they are, [stop] leaves on the stream the chunks in
    ascending order of the timestamps of their frames. *)
Theorem in_order_arrival_is_written_in_order (stamp : Blob -> Q) raws stoppedTime fps
  (p : Promise) :
  Sorted Qle ((fun r => md_timestamp (metadata r)) <$> raws) ->
  (forall r, r ∈ raws -> stamp (createBlob r) == md_timestamp (metadata r)) ->
  exists w',
    insert_all createBlob raws (new_writer fps p) ≫= stop stoppedTime = Some (p, w')
    /\ Sorted Qle (stamp <$> written (_videoMediatorStream w')).
Proof.
  intros Hsorted Hstamp.
  assert (Hss : StronglySorted
            (fun a b => md_timestamp (metadata a) <= md_timestamp (metadata b)) raws).
  { apply Sorted_StronglySorted; [intros a b c; apply Qle_trans|].
    clear -Hsorted. induction raws as [|a l IH]; [constructor|].
    cbn [fmap list_fmap] in Hsorted. inversion Hsorted as [|? ? Hl Hhd]; subst.
    constructor; [by apply IH|]. destruct l; constructor. by inversion Hhd. }
  destruct raws as [|r0 raws].
  { eexists. split; [reflexivity|]. cbn. constructor. }
  destruct (in_order_insert_all stamp (r0 :: raws) (md_timestamp (metadata r0))
              (new_writer fps p)) as (w1 & m & Hrun & Hinv); [| |done|done|].
  { split; [constructor|]. split; [constructor|]. split; [constructor|].
    split; [constructor|]. intros b f Hb. by apply elem_of_nil in Hb. }
  { constructor; [apply Qle_refl|]. by apply StronglySorted_cons in Hss as [? _]. }
  destruct (insert_all_ledger (r0 :: raws) (new_writer fps p))
    as (w1' & _ & Hrun' & _ & _ & _ & _ & Hp & Hst).
  rewrite Hrun in Hrun'. simplify_eq.
  rewrite Hrun. cbn [mbind option_bind].
  rewrite stop_not_completed by (by apply Hst).
  eexists. split; [by rewrite Hp|].
  cbn [_videoMediatorStream set_status set_videoMediatorStream stream_end written
       set_screenCastFrames].
  destruct (write_all_spec (resolve (_screenCastFrames w1') stoppedTime) w1') as (Hw & _).
  rewrite Hw. destruct Hinv as (Hs & Hfr & Hws & _ & Hcross).
  rewrite Forall_forall in Hfr.
  apply StronglySorted_Sorted. rewrite fmap_app. apply StronglySorted_app_2; [|done|].
  - intros x1 x2 (b1 & -> & Hb1)%list_elem_of_fmap (b2 & -> & Hb2)%list_elem_of_fmap.
    apply elem_of_chunks_of in Hb2 as (g & Hg & ->).
    destruct (Hfr g Hg) as [_ ->]. by apply Hcross.
  - apply chunks_of_sorted; [done|]. intros f Hf. by apply Hfr.
Qed.

(** *** The stream before the buffer is full *)




(** X4: the batch a half-drain writes has no negative duration: when the
    buffer is sorted and holds [_screenLimit] frames, [_trimFrame] gives
    each of the 20 drained frames a duration of zero or more. *)
Theorem half_drain_durations_nonnegative (w : Writer') :
  length (_screenCastFrames w) = _screenLimit ->
  sorted_by_timestamp (_screenCastFrames w) ->
  exists head processed,
    drop (_screenLimit / 2) (_screenCastFrames w) !! 0%nat = Some head
    /\ _trimFrame (take (_screenLimit / 2) (_screenCastFrames w)) (timestamp head)
         = Some processed
    /\ Forall (fun t => exists d, duration t = Some d /\ 0 <= d) processed.
Proof.
  intros Hlen Hs. rewrite half_screenLimit.
  destruct (lookup_lt_is_Some_2 (drop 20 (_screenCastFrames w)) 0) as [head Hhead].
  { rewrite length_drop, Hlen. unfold _screenLimit. lia. }
  exists head, (resolve (take 20 (_screenCastFrames w)) (timestamp head)).
  split; [exact Hhead|]. split; [apply trimFrame_resolve|].
  apply resolve_nonneg; [by apply sorted_take|].
  apply Forall_forall. intros f Hf.
  pose proof Hs as Hs'. rewrite <- (take_drop 20 (_screenCastFrames w)) in Hs'.
  apply (StronglySorted_app_1_elem_of _ _ _ _ _ Hs'); [done|].
  apply list_elem_of_lookup. by exists 0%nat.
Qed.


(** *** The slot and the number of older frames *)

Lemma filter_all_true {A} (f : A -> bool) (l : list A) :
  Forall (fun x => f x = true) l -> List.filter f l = l.
Proof. induction 1 as [|x l Hx _ IH]; [done|]. cbn. by rewrite Hx, IH. Qed.

Lemma filter_all_false {A} (f : A -> bool) (l : list A) :
  Forall (fun x => f x = false) l -> List.filter f l = [].
Proof. induction 1 as [|x l Hx _ IH]; [done|]. cbn. by rewrite Hx. Qed.

(** X8: on a sorted buffer the scan of [_findSlot] from the tail returns
    the number of frames whose timestamp is smaller than the new one: the
    length of the buffer when the new frame is the newest, 0 when no frame
    is older. *)
Theorem findSlot_counts_older_frames t (w : Writer') :
  sorted_by_timestamp (_screenCastFrames w) ->
  _findSlot t w = Some (count_older t (_screenCastFrames w))
  /\ (Forall (fun x => timestamp x < t) (_screenCastFrames w) ->
       _findSlot t w = Some (length (_screenCastFrames w)))
  /\ (Forall (fun x => t <= timestamp x) (_screenCastFrames w) -> _findSlot t w = Some 0%nat).
Proof.
  intros Hs.
  destruct (findSlot_spec t w) as (k & Hk & Hle & Hlt & Hge). specialize (Hlt Hs).
  assert (Hcount : count_older t (_screenCastFrames w) = k).
  { unfold count_older. rewrite <- (take_drop k (_screenCastFrames w)) at 1.
    rewrite List.filter_app, filter_all_true, filter_all_false.
    - rewrite app_nil_r, length_take. lia.
    - eapply Forall_impl; [exact Hge|]. intros x Hx. by apply number_gt_false.
    - eapply Forall_impl; [exact Hlt|]. intros x Hx. by apply number_gt_true. }
  rewrite Hk, Hcount. split; [done|]. split.
  - intros Hall. rewrite <- Hcount. unfold count_older. rewrite filter_all_true; [done|].
    eapply Forall_impl; [exact Hall|]. intros x Hx. by apply number_gt_true.
  - intros Hall. rewrite <- Hcount. unfold count_older. rewrite filter_all_false; [done|].
    eapply Forall_impl; [exact Hall|]. intros x Hx. by apply number_gt_false.
Qed.

(** *** Repetitions and time *)

Lemma floor_le_1 (x : Q) : (Qfloor x <= 1)%Z <-> x < 2.
Proof.
  split.
  - intros H. eapply Qlt_le_trans; [apply Qlt_floor|].
    change (inject_Z (Qfloor x + 1) <= inject_Z 2). rewrite <- Zle_Qle. lia.
  - intros H. assert (Hlt : (Qfloor x < 2)%Z); [|lia].
    rewrite Zlt_Qlt. eapply Qle_lt_trans; [apply Qfloor_le|exact H].
Qed.

(** X9: for a product [durationSeconds * fps] below the overflow of
    binary64, [write] passes a blob exactly once if and only if the
    product, as binary64 rounds it, is less than 2; this covers the
    durations that are zero or negative. *)
Theorem write_once_iff_under_two_frame_times (chunk : Blob) (durationSeconds : Q)
  (w : Writer') :
  durationSeconds * options_fps w < binary64_overflow ->
  written (_videoMediatorStream (write chunk (Some durationSeconds) w)) =
    written (_videoMediatorStream w) ++ [chunk]
  <-> binary64 (durationSeconds * options_fps w) < 2.
Proof.
  intros _.
  destruct (write_spec chunk (Some durationSeconds) w) as (-> & _).
  change (default 1 (Some durationSeconds)) with durationSeconds.
  rewrite <- floor_le_1. unfold repetitions, Math_max, Math_floor, number_mul.
  split.
  - intros H%app_inv_head. apply (f_equal length) in H.
    rewrite length_replicate in H. cbn [length] in H. lia.
  - intros H.
    replace (Z.to_nat (Z.max (Qfloor (binary64 (durationSeconds * options_fps w))) 1))
      with 1%nat by lia. reflexivity.
Qed.

End WriterLedger.

(** ** Frames whose conversion is rejected *)

Section ConversionProperties.

Context {Data Blob Promise : Type}.
Variable toBuffer : @RawFrame Data -> option Blob.

Lemma insert_awaited_all_converted raws (w : @PageVideoStreamWriter Blob Promise) :
  insert_awaited_all toBuffer raws w = insert_all data (converted toBuffer raws) w.
Proof.
  revert w. induction raws as [|raw raws IH]; intros w; [done|].
  cbn [insert_awaited_all]. unfold insert_awaited, converted.
  cbn [omap list_omap]. fold (converted toBuffer raws).
  destruct (toBuffer raw) as [b|]; cbn [mbind option_bind snd].
  - rewrite insert_all_cons.
    change (insert data {| data := b; metadata := metadata raw |} w)
      with (insert (fun _ : @RawFrame Data => b) raw w).
    destruct (insert (fun _ => b) raw w) as [w1|]; cbn [mbind option_bind snd]; [apply IH|done].
  - apply IH.
Qed.

Lemma converted_frame_keys raws :
  (fun r : @RawFrame Blob => (md_timestamp (metadata r), data r)) <$> converted toBuffer raws
  = converted_keys toBuffer raws.
Proof.
  induction raws as [|raw raws IH]; [done|].
  unfold converted, converted_keys. cbn [omap list_omap].
  fold (converted toBuffer raws). fold (converted_keys toBuffer raws).
  destruct (toBuffer raw) as [b|]; cbn [mbind option_bind]; [|exact IH].
  cbn [fmap list_fmap data metadata]. f_equal. exact IH.
Qed.

Lemma elem_of_converted_keys raws t b :
  (t, b) ∈ converted_keys toBuffer raws <->
  exists r, r ∈ raws /\ toBuffer r = Some b /\ md_timestamp (metadata r) = t.
Proof.
  unfold converted_keys. rewrite list_elem_of_omap. split.
  - intros (r & Hr & Hk). exists r. split; [done|].
    destruct (toBuffer r); cbn in Hk; by simplify_eq.
  - intros (r & Hr & Hb & <-). exists r. split; [done|]. by rewrite Hb.
Qed.

Lemma chunks_of_blob fps (timed : list (@PageScreenFrame Blob)) b :
  b ∈ chunks_of fps timed -> exists f, f ∈ timed /\ b = blob f.
Proof.
  induction timed as [|g l IH]; [by intros ?%elem_of_nil|].
  cbn [chunks_of flat_map]. fold (chunks_of fps l). intros [Hb|Hb]%elem_of_app.
  - apply elem_of_replicate in Hb as [-> _]. exists g. split; [left|done].
  - destruct (IH Hb) as (f & Hf & ->). exists f. split; [by right|done].
Qed.

(** X1: whatever the frames, their order and the frames whose conversion
    is rejected, the run of [insert] followed by [stop] returns, empties
    the buffer, ends the stream once, and the stream holds the chunks of a
    list of frames with durations that is, in some order, the frames whose
    conversion is fulfilled: none of them is left out, none is written as
    two entries, every blob of theirs is on the stream at least once, and
    nothing else is on the stream. *)
Theorem every_frame_reaches_the_stream raws stoppedTime fps (p : Promise) :
  exists w' timed,
    insert_awaited_all toBuffer raws (new_writer fps p) ≫= stop stoppedTime = Some (p, w')
    /\ written (_videoMediatorStream w') = chunks_of fps timed
    /\ frame_key <$> timed ≡ₚ converted_keys toBuffer raws
    /\ (forall r b, r ∈ raws -> toBuffer r = Some b -> b ∈ written (_videoMediatorStream w'))
    /\ (forall b, b ∈ written (_videoMediatorStream w') ->
          exists r, r ∈ raws /\ toBuffer r = Some b)
    /\ (length (converted_keys toBuffer raws) <= length (written (_videoMediatorStream w')))%nat
    /\ _screenCastFrames w' = []
    /\ endCalls (_videoMediatorStream w') = 1%nat.
Proof.
  rewrite insert_awaited_all_converted.
  destruct (insert_all_stop_ledger data (converted toBuffer raws) stoppedTime fps p)
    as (w' & timed & Hrun & Hwr & Hkeys & _ & _ & Hbuf & Hend).
  rewrite converted_frame_keys in Hkeys.
  exists w', timed. split; [exact Hrun|]. split; [exact Hwr|]. split; [exact Hkeys|].
  split.
  { intros r b Hr Hb. rewrite Hwr.
    assert (Hk : (md_timestamp (metadata r), b) ∈ frame_key <$> timed).
    { rewrite Hkeys. apply elem_of_converted_keys. by exists r. }
    apply list_elem_of_fmap in Hk as (f & Hf & Hin).
    unfold frame_key in Hf. injection Hf as _ ->. by apply elem_of_chunks_of_blob. }
  split.
  { intros b Hb. rewrite Hwr in Hb. apply chunks_of_blob in Hb as (f & Hf & ->).
    assert (Hk : frame_key f ∈ converted_keys toBuffer raws).
    { rewrite <- Hkeys. apply list_elem_of_fmap. by exists f. }
    apply elem_of_converted_keys in Hk as (r & Hr & Hb & _). by exists r. }
  split; [|done].
  rewrite Hwr. etrans; [|apply length_chunks_of].
  apply Permutation_length in Hkeys. rewrite length_fmap in Hkeys. lia.
Qed.

End ConversionProperties.

(** ** Properties of the collector and of the recorder *)

Section CollectorProperties.

Context {Data Blob Promise : Type}.
Variable createBlob : @RawFrame Data -> Blob.
Variable await : Promise -> bool.

Abbreviation Trace := (@CollectorTrace Data).
Abbreviation Recorder := (@PuppeteerScreenRecorder Blob Promise).

Lemma listener_forwards (c : pageVideoStreamCollector) (sf : @ScreencastFrame Data) :
  screencastFrame_listener c sf =
    if falsy_number (cdp_timestamp (sf_metadata sf)) || _isStreamingEnded c then Resolved
    else Forwarded (sf_sessionId sf) (raw_of_screencastFrame sf).
Proof.
  unfold screencastFrame_listener, raw_of_screencastFrame.
  destruct (cdp_timestamp (sf_metadata sf)) as [q|]; [|done].
  by destruct (falsy_number (Some q) || _isStreamingEnded c).
Qed.

Lemma collector_run_ended (events : list (@CollectorEvent Data)) (t : Trace) :
  _isStreamingEnded (ct_collector t) = true ->
  ct_acks (foldl collector_step t events) = ct_acks t
  /\ ct_pageScreenFrames (foldl collector_step t events) = ct_pageScreenFrames t
  /\ _isStreamingEnded (ct_collector (foldl collector_step t events)) = true.
Proof.
  revert t. induction events as [|e events IH]; intros t Hended; [done|].
  cbn [foldl].
  destruct (IH (collector_step t e)) as (-> & -> & ->).
  - destruct e as [sf|]; cbn [collector_step].
    + rewrite listener_forwards, Hended, orb_true_r. done.
    + unfold collector_stop. by rewrite Hended.
  - destruct e as [sf|]; cbn [collector_step].
    + rewrite listener_forwards, Hended, orb_true_r. done.
    + unfold collector_stop. by rewrite Hended.
Qed.

Lemma collector_run_open (events : list (@CollectorEvent Data)) (t : Trace) :
  _isStreamingEnded (ct_collector t) = false ->
  ct_acks (foldl collector_step t events) =
    ct_acks t ++ (sf_sessionId <$> forwarded_frames events)
  /\ ct_pageScreenFrames (foldl collector_step t events) =
       ct_pageScreenFrames t ++ (raw_of_screencastFrame <$> forwarded_frames events).
Proof.
  revert t. induction events as [|e events IH]; intros t Hopen.
  - cbn. by rewrite !app_nil_r.
  - cbn [foldl]. destruct e as [sf|].
    + cbn [collector_step forwarded_frames].
      rewrite listener_forwards, Hopen, orb_false_r.
      destruct (falsy_number (cdp_timestamp (sf_metadata sf))).
      * by destruct (IH {| ct_collector := ct_collector t; ct_acks := ct_acks t;
                           ct_pageScreenFrames := ct_pageScreenFrames t;
                           ct_resolveCalls := S (ct_resolveCalls t) |} Hopen) as (-> & ->).
      * destruct (IH {| ct_collector := ct_collector t;
                        ct_acks := ct_acks t ++ [sf_sessionId sf];
                        ct_pageScreenFrames :=
                          ct_pageScreenFrames t ++ [raw_of_screencastFrame sf];
                        ct_resolveCalls := ct_resolveCalls t |} Hopen) as (-> & ->).
        cbn [ct_acks ct_pageScreenFrames fmap list_fmap]. by rewrite <- !app_assoc.
    + cbn [forwarded_frames fmap list_fmap].
      destruct (collector_run_ended events (collector_step t stopCompletes)) as (-> & -> & _).
      * cbn [collector_step ct_collector]. unfold collector_stop. by rewrite Hopen.
      * cbn [collector_step ct_acks ct_pageScreenFrames]. by rewrite !app_nil_r.
Qed.

Lemma forwarded_frames_timestamp (events : list (@CollectorEvent Data)) sf :
  sf ∈ forwarded_frames events ->
  exists q, cdp_timestamp (sf_metadata sf) = Some q /\ ~ q == 0.
Proof.
  induction events as [|e events IH]; [by intros ?%elem_of_nil|].
  destruct e as [sf'|]; cbn [forwarded_frames]; [|by intros ?%elem_of_nil].
  destruct (falsy_number (cdp_timestamp (sf_metadata sf'))) eqn:Hf; [exact IH|].
  intros [->|Hin]%elem_of_cons; [|by apply IH].
  destruct (cdp_timestamp (sf_metadata sf')) as [q|]; [|done].
  exists q. split; [done|]. cbn in Hf. intros Hq. apply Qeq_bool_iff in Hq. congruence.
Qed.

(** X10: the collector forwards a screencast frame if and only if it
    acknowledges it.  From a new collector and for every sequence of
    frame events and completed calls of [stop], the frames emitted as
    [pageScreenFrame] are, in order, the events before the first completed
    [stop] whose timestamp is present and not 0, the acknowledgments sent
    are those of the same events, and an emitted frame never has the
    timestamp 0. *)
Theorem collector_forwards_what_it_acknowledges (events : list (@CollectorEvent Data)) :
  let t := foldl collector_step new_collector events in
  ct_pageScreenFrames t = raw_of_screencastFrame <$> forwarded_frames events
  /\ ct_acks t = sf_sessionId <$> forwarded_frames events
  /\ length (ct_acks t) = length (ct_pageScreenFrames t)
  /\ Forall (fun r => ~ md_timestamp (metadata r) == 0) (ct_pageScreenFrames t).
Proof.
  destruct (collector_run_open events new_collector eq_refl) as (Hacks & Hframes).
  cbn [new_collector ct_acks ct_pageScreenFrames app] in Hacks, Hframes.
  cbn zeta. rewrite Hacks, Hframes.
  split; [done|]. split; [done|]. split; [by rewrite !length_fmap|].
  apply Forall_forall. intros r (sf & -> & Hsf)%list_elem_of_fmap.
  destruct (forwarded_frames_timestamp events sf Hsf) as (q & Hq & Hnz).
  unfold raw_of_screencastFrame. cbn [metadata md_timestamp]. by rewrite Hq.
Qed.

(** *** The recorder *)

Lemma recorder_run_ended (sfs : list (@ScreencastFrame Data)) (r : Recorder) :
  _isStreamingEnded (_streamReader r) = true -> recorder_run createBlob sfs r = Some r.
Proof.
  intros Hended. unfold recorder_run.
  induction sfs as [|sf sfs IH]; [done|].
  cbn [foldl mbind option_bind]. unfold recorder_on_screencastFrame at 2.
  rewrite listener_forwards, Hended, orb_true_r. exact IH.
Qed.

(** X11: once [stop] of a started recorder has completed, screencast
    frames no longer reach the writer: whatever events follow, the
    recorder, its writer and the stream stay as [stop] left them, and
    [stop] keeps returning the same result. *)
Theorem frames_after_stop_are_dropped now reader (w : @PageVideoStreamWriter Blob Promise) :
  exists result r1,
    recorder_stop await now
      {| _streamReader := reader; _streamWriter := Some w; _isScreenCaptureEnded := None |}
      = Some (result, r1)
    /\ result = await (_writerPromise w)
    /\ (exists w1, _streamWriter r1 = Some w1 /\ _status w1 = COMPLETED)
    /\ forall (sfs : list (@ScreencastFrame Data)) later,
         recorder_run createBlob sfs r1 = Some r1
         /\ (recorder_run createBlob sfs r1 ≫= recorder_stop await later) = Some (result, r1).
Proof.
  cbn [recorder_stop _isScreenCaptureEnded _streamReader _streamWriter].
  assert (Hreader : _isStreamingEnded (collector_stop reader).2 = true).
  { unfold collector_stop. by destruct (_isStreamingEnded reader) eqn:E. }
  destruct (collector_stop reader) as [? reader']. cbn [snd] in Hreader.
  cbn [mbind option_bind].
  assert (Hstop : exists w1, stop now w = Some (_writerPromise w, w1) /\ _status w1 = COMPLETED).
  { destruct (decide (_status w = COMPLETED)) as [Hst|Hst].
    - exists w. by rewrite stop_completed.
    - rewrite stop_not_completed by done. eauto. }
  destruct Hstop as (w1 & -> & Hst1). cbn [mbind option_bind].
  eexists _, _. split; [reflexivity|]. split; [reflexivity|].
  split; [by exists w1|].
  intros sfs later. rewrite recorder_run_ended by done. split; [done|]. reflexivity.
Qed.

End CollectorProperties.

(** ** Properties of the quality, of the image size and of the listeners *)

(** X13: the quality sent with [Page.startScreencast] is always between 0
    and 100: a quality in that range is sent as it is, a greater one as
    100, a smaller one as 0, and [NaN] as 100. *)
Theorem screencast_quality_in_range (quality : jsnumber) :
  0 <= startScreenCast_quality quality <= 100
  /\ (quality = NaN -> startScreenCast_quality quality = 100)
  /\ (forall q, quality = Num q -> 0 <= q <= 100 -> startScreenCast_quality quality == q)
  /\ (forall q, quality = Num q -> 100 <= q -> startScreenCast_quality quality == 100)
  /\ (forall q, quality = Num q -> q <= 0 -> startScreenCast_quality quality == 0).
Proof.
  destruct quality as [|q]; cbn [startScreenCast_quality].
  - split; [lra|]. split; [done|]. repeat split; intros; discriminate.
  - pose proof (Q.min_spec q 100) as Hmin.
    pose proof (Q.max_spec (Qmin q 100) 0) as Hmax.
    set (m := Qmin q 100) in *. set (M := Qmax m 0) in *.
    split; [lra|]. split; [discriminate|].
    repeat split; intros q' [= <-] Hq; lra.
Qed.

Section ImageSizes.

Ltac size_tests :=
  repeat match goal with
         | |- context [(?a <? ?b)%Z] =>
             replace (a <? b)%Z with true by (symmetry; apply Z.ltb_lt; lia)
         | |- context [(?a <=? ?b)%Z] =>
             replace (a <=? b)%Z with true by (symmetry; apply Z.leb_le; lia)
         | |- context [(?a =? 0)%Z] =>
             replace (a =? 0)%Z with false by (symmetry; apply Z.eqb_neq; lia)
         end.

(** X14: with [saveFrameSize], a frame that comes with the size of the
    device leaves [_createPageScreenFrame] with exactly the width and the
    height of [videoFrame], whatever the size of the captured image and of
    the device; no operation is out of the bounds of the image.  A frame
    without the size of the device, and every frame without
    [saveFrameSize], keeps the size it was captured with. *)
Theorem createPageScreenFrame_gives_videoFrame_size (videoFrame : VideoFrame) (md : Metadata)
  (decoded : ImageSize) :
  (forall width height deviceWidth' deviceHeight',
     vf_width videoFrame = Some width -> vf_height videoFrame = Some height ->
     deviceWidth md = Some deviceWidth' -> deviceHeight md = Some deviceHeight' ->
     (0 < width)%Z -> (0 < height)%Z -> (0 < deviceWidth')%Z -> (0 < deviceHeight')%Z ->
     createPageScreenFrame_size true videoFrame md decoded
       = Some {| img_width := width; img_height := height |})
  /\ (deviceWidth md = None \/ deviceHeight md = None ->
      createPageScreenFrame_size true videoFrame md decoded = Some decoded)
  /\ createPageScreenFrame_size false videoFrame md decoded = Some decoded.
Proof.
  split; [|split; [|done]].
  - intros W H dw dh HW HH Hdw Hdh ? ? ? ?.
    unfold createPageScreenFrame_size, createPageScreenFrame_operations, sharp_toBuffer_size.
    rewrite Hdw, Hdh, HW, HH. cbn [null_to_number default from_option id].
    do 4 (size_tests;
          cbn [negb andb foldl mbind option_bind sharp_operation_size img_width img_height]).
    do 2 f_equal; lia.
  - unfold createPageScreenFrame_size, createPageScreenFrame_operations.
    intros [-> | ->]; [done|]. by destruct (deviceWidth md).
Qed.

(** X15: [FrameImageProcesser.process] returns an image of exactly the
    width and the height of its options when the size given to the
    constructor and the size asked for are positive, whatever the size of
    the image in the buffer. *)
Theorem FrameImageProcesser_gives_the_size_asked_for (size options decoded : ImageSize) :
  (0 < img_width size)%Z -> (0 < img_height size)%Z ->
  (0 < img_width options)%Z -> (0 < img_height options)%Z ->
  FrameImageProcesser_process size options decoded = Some options.
Proof.
  intros ? ? ? ?.
  unfold FrameImageProcesser_process, FrameImageProcesser_operations, sharp_toBuffer_size.
  do 4 (size_tests;
        cbn [negb andb app foldl mbind option_bind sharp_operation_size img_width img_height]).
  destruct options as [width height]. cbn [img_width img_height] in *.
  do 2 f_equal; lia.
Qed.

End ImageSizes.

Section ListenerProperties.

Context {Blob Promise : Type}.

Abbreviation Host := (@WriterHost Blob Promise).

Lemma handleWriteStreamError_fields m (w : @PageVideoStreamWriter Blob Promise) :
  emitted (_handleWriteStreamError m w) = emitted w ++ [("videoStreamWriterError"%string, m)]
  /\ _status (_handleWriteStreamError m w) = _status w
  /\ _videoMediatorStream (_handleWriteStreamError m w) = _videoMediatorStream w
  /\ _screenCastFrames (_handleWriteStreamError m w) = _screenCastFrames w.
Proof.
  unfold _handleWriteStreamError. cbn [_status emit].
  by destruct (negb (status_eqb (_status w) IN_PROGRESS) && includes m "pipe:0: End of file").
Qed.

Lemma ffmpeg_events_cons on e events (h : Host) :
  ffmpeg_events on (e :: events) h = on e h ≫= ffmpeg_events on events.
Proof.
  unfold ffmpeg_events. cbn [foldl mbind option_bind].
  destruct (on e h) as [h1|]; [done|].
  cbn [mbind option_bind]. induction events as [|x events IH]; [done|exact IH].
Qed.

(** X16: with a file as destination every error of ffmpeg raises
    [videoStreamWriterError] once, with its message and in the order of
    the errors; the promise of the writer keeps the result of the first
    event, [false] for an error and [true] for the end. *)
Theorem file_destination_signals_every_error (events : list FfmpegEvent) (h : Host) :
  exists h',
    ffmpeg_events configureVideoFile_on events h = Some h'
    /\ emitted (host_writer h') =
         emitted (host_writer h)
         ++ ((fun m => ("videoStreamWriterError"%string, m)) <$> error_messages events)
    /\ host_settled h' = (match host_settled h with
                          | Some settled => Some settled
                          | None => first_result events
                          end)
    /\ _videoMediatorStream (host_writer h') = _videoMediatorStream (host_writer h)
    /\ _screenCastFrames (host_writer h') = _screenCastFrames (host_writer h)
    /\ _status (host_writer h') = _status (host_writer h).
Proof.
  revert h. induction events as [|e events IH]; intros h.
  - exists h. cbn. rewrite app_nil_r. by destruct (host_settled h).
  - rewrite ffmpeg_events_cons. destruct e as [m|]; cbn [configureVideoFile_on mbind option_bind].
    + match goal with |- context [ffmpeg_events _ _ ?h1] =>
        destruct (IH h1) as (h' & -> & Hem & Hset & Hstream & Hframes & Hst) end.
      exists h'. split; [done|].
      cbn [promise_resolve host_writer host_settled] in *.
      destruct (handleWriteStreamError_fields m (host_writer h)) as (Hem1 & Hst1 & Hs1 & Hf1).
      rewrite Hem, Hem1, Hset, Hstream, Hframes, Hst, Hs1, Hf1, Hst1.
      cbn [error_messages omap fmap list_fmap first_result]. rewrite <- app_assoc.
      split; [done|]. split; [by destruct (host_settled h)|]. done.
    + match goal with |- context [ffmpeg_events _ _ ?h1] =>
        destruct (IH h1) as (h' & -> & Hem & Hset & Hstream & Hframes & Hst) end.
      exists h'. split; [done|].
      cbn [promise_resolve host_writer host_settled] in *.
      rewrite Hem, Hset. cbn [error_messages omap first_result].
      split; [done|]. split; [by destruct (host_settled h)|]. done.
Qed.

(** X17: with a writable stream as destination no event of ffmpeg raises
    [videoStreamWriterError]: an error is emitted on the destination and
    the writer stays as it is; the destination is ended once for every
    end of ffmpeg and never for an error; the promise keeps the result of
    the first event. *)
Theorem stream_destination_never_signals (events : list FfmpegEvent) (h : Host) :
  host_errorListener h = true ->
  exists h',
    ffmpeg_events configureVideoWritableStream_on events h = Some h'
    /\ host_writer h' = host_writer h
    /\ host_destinationErrors h' = host_destinationErrors h ++ error_messages events
    /\ host_destinationEndCalls h' =
         (host_destinationEndCalls h + (length events - length (error_messages events)))%nat
    /\ host_settled h' = (match host_settled h with
                          | Some settled => Some settled
                          | None => first_result events
                          end).
Proof.
  revert h. induction events as [|e events IH]; intros h Hl.
  - exists h. cbn. rewrite app_nil_r, Nat.add_0_r. by destruct (host_settled h).
  - rewrite ffmpeg_events_cons.
    assert (Hlen : (length (error_messages events) <= length events)%nat).
    { clear. unfold error_messages.
      induction events as [|[m|] l IHl]; csimpl; cbn [length] in *; lia. }
    destruct e as [m|]; cbn [configureVideoWritableStream_on mbind option_bind].
    + rewrite Hl. cbn [mbind option_bind].
      match goal with |- context [ffmpeg_events _ _ ?h1] =>
        destruct (IH h1) as (h' & -> & Hw & Herr & Hend & Hset); [done|] end.
      exists h'. split; [done|].
      cbn [promise_resolve host_writer host_settled host_destinationErrors
           host_destinationEndCalls] in *.
      rewrite Hw, Herr, Hend, Hset.
      change (error_messages (ffmpeg_error m :: events)) with (m :: error_messages events).
      cbn [first_result length]. rewrite <- app_assoc.
      split; [done|]. split; [done|]. split; [lia|]. by destruct (host_settled h).
    + match goal with |- context [ffmpeg_events _ _ ?h1] =>
        destruct (IH h1) as (h' & -> & Hw & Herr & Hend & Hset); [done|] end.
      exists h'. split; [done|].
      cbn [promise_resolve host_writer host_settled host_destinationErrors
           host_destinationEndCalls] in *.
      rewrite Hw, Herr, Hend, Hset.
      change (error_messages (ffmpeg_end :: events)) with (error_messages events).
      cbn [first_result length].
      split; [done|]. split; [done|]. split; [lia|]. by destruct (host_settled h).
Qed.

End ListenerProperties.

(** ** The further properties at concrete inputs *)

(** X1 for three frames that arrive out of order, the conversion of the
    frame of second 7 being rejected. *)
Lemma every_frame_reaches_the_stream_witness :
  raw_of_second 5 ∈ three_frames
  /\ reject_second_7 (raw_of_second 5) = Some 5%nat
  /\ exists w',
       insert_awaited_all reject_second_7 three_frames writer_1fps ≫= stop 12 = Some (tt, w')
       /\ 5%nat ∈ written (_videoMediatorStream w')
       /\ 7%nat ∉ written (_videoMediatorStream w').
Proof.
  assert (Hin : raw_of_second 5 ∈ three_frames) by (right; left).
  assert (Hb : reject_second_7 (raw_of_second 5) = Some 5%nat) by reflexivity.
  split; [exact Hin|]. split; [exact Hb|].
  destruct (every_frame_reaches_the_stream reject_second_7 three_frames 12 1 tt)
    as (w' & timed & Hrun & _ & _ & Hall & Honly & _).
  exists w'. split; [exact Hrun|]. split; [exact (Hall _ _ Hin Hb)|].
  intros (r & Hr & H7)%Honly.
  apply list_elem_of_In in Hr. cbn in Hr.
  destruct Hr as [<-|[<-|[<-|[]]]]; vm_compute in H7; discriminate.
Defined.

(** X2 for the forty-one frames of [by_timestamp]. *)
Lemma in_order_arrival_is_written_in_order_witness :
  Sorted Qle ((fun r => md_timestamp (metadata r)) <$> by_timestamp)
  /\ (forall r, r ∈ by_timestamp ->
        second_of_blob (blob_of_id r) == md_timestamp (metadata r))
  /\ exists w',
       insert_all blob_of_id by_timestamp writer_1fps ≫= stop 42 = Some (tt, w')
       /\ Sorted Qle (second_of_blob <$> written (_videoMediatorStream w')).
Proof.
  assert (Hs : Sorted Qle ((fun r => md_timestamp (metadata r)) <$> by_timestamp))
    by (apply Sorted_ascending; vm_compute; reflexivity).
  assert (Hstamp : forall r, r ∈ by_timestamp ->
            second_of_blob (blob_of_id r) == md_timestamp (metadata r))
    by exact (raw_of_second_stamp (seq 1 41)).
  split; [exact Hs|]. split; [exact Hstamp|].
  exact (in_order_arrival_is_written_in_order blob_of_id second_of_blob by_timestamp 42 1 tt
           Hs Hstamp).
Defined.


(** X4 for the full buffer. *)
Lemma half_drain_durations_nonnegative_witness :
  length (_screenCastFrames full_writer) = _screenLimit
  /\ sorted_by_timestamp (_screenCastFrames full_writer)
  /\ exists processed,
       _trimFrame (take 20 (_screenCastFrames full_writer)) 21 = Some processed
       /\ Forall (fun t => exists d, duration t = Some d /\ 0 <= d) processed.
Proof.
  split; [reflexivity|]. split; [exact full_writer_sorted|].
  destruct (half_drain_durations_nonnegative full_writer eq_refl full_writer_sorted)
    as (head & processed & Hhead & Htrim & Hall).
  vm_compute in Hhead. injection Hhead as <-.
  exists processed. split; [exact Htrim|exact Hall].
Defined.


(** X8 for the full buffer and a timestamp between the seconds 30 and 31. *)
Lemma findSlot_counts_older_frames_witness :
  sorted_by_timestamp (_screenCastFrames full_writer)
  /\ _findSlot (61 # 2) full_writer = Some 30%nat.
Proof.
  split; [exact full_writer_sorted|].
  destruct (findSlot_counts_older_frames (61 # 2) full_writer full_writer_sorted) as (H & _).
  rewrite H. reflexivity.
Defined.

(** X9 for 0.06 s at 25 frames per second. *)
Lemma write_once_iff_under_two_frame_times_witness :
  double_0_06 * options_fps writer_25fps < binary64_overflow
  /\ binary64 (double_0_06 * options_fps writer_25fps) < 2
  /\ written (_videoMediatorStream (write 7%nat (Some double_0_06) writer_25fps)) =
       written (_videoMediatorStream writer_25fps) ++ [7%nat].
Proof.
  assert (Hfinite : double_0_06 * options_fps writer_25fps < binary64_overflow)
    by (vm_compute; reflexivity).
  assert (H : binary64 (double_0_06 * options_fps writer_25fps) < 2)
    by (vm_compute; reflexivity).
  split; [exact Hfinite|]. split; [exact H|].
  exact (proj2 (write_once_iff_under_two_frame_times 7%nat double_0_06 writer_25fps Hfinite) H).
Defined.

(** X13 for the qualities 80 and 150. *)
Lemma screencast_quality_in_range_witness :
  0 <= 80 <= 100 /\ 100 <= 150
  /\ startScreenCast_quality (Num 80) == 80
  /\ startScreenCast_quality (Num 150) == 100.
Proof.
  assert (H80 : 0 <= 80 <= 100) by (split; by apply Qle_bool_iff).
  assert (H150 : 100 <= 150) by (by apply Qle_bool_iff).
  split; [exact H80|]. split; [exact H150|]. split.
  - destruct (screencast_quality_in_range (Num 80)) as (_ & _ & Hin & _).
    exact (Hin 80 eq_refl H80).
  - destruct (screencast_quality_in_range (Num 150)) as (_ & _ & _ & Habove & _).
    exact (Habove 150 eq_refl H150).
Defined.

(** X14 for a capture of 1600 x 1200 from a device of 800 x 600 and a
    frame size of 1280 x 720. *)
Lemma createPageScreenFrame_gives_videoFrame_size_witness :
  createPageScreenFrame_size true hd_videoFrame device_metadata captured_size
  = Some {| img_width := 1280; img_height := 720 |}.
Proof.
  destruct (createPageScreenFrame_gives_videoFrame_size hd_videoFrame device_metadata
              captured_size) as (H & _).
  apply (H 1280 720 800 600)%Z; (reflexivity || lia).
Defined.

(** X15 for the same sizes. *)
Lemma FrameImageProcesser_gives_the_size_asked_for_witness :
  FrameImageProcesser_process {| img_width := 800; img_height := 600 |}
    {| img_width := 1280; img_height := 720 |} captured_size
  = Some {| img_width := 1280; img_height := 720 |}.
Proof.
  apply FrameImageProcesser_gives_the_size_asked_for; cbn [img_width img_height]; lia.
Defined.

(** X17 for an error of ffmpeg followed by its end. *)
Lemma stream_destination_never_signals_witness :
  host_errorListener stream_host = true
  /\ exists h',
       ffmpeg_events configureVideoWritableStream_on
         [ffmpeg_error "Conversion failed!"; ffmpeg_end] stream_host = Some h'
       /\ emitted (host_writer h') = []
       /\ host_destinationErrors h' = ["Conversion failed!"%string]
       /\ host_settled h' = Some false.
Proof.
  split; [reflexivity|].
  destruct (stream_destination_never_signals
              [ffmpeg_error "Conversion failed!"; ffmpeg_end] stream_host eq_refl)
    as (h' & Hrun & Hw & Herr & _ & Hset).
  exists h'. split; [exact Hrun|]. split; [by rewrite Hw|]. split; [exact Herr|exact Hset].
Defined.
